(** * rss-feed-reader: the custom XML feed parser and the fetcher

    A shallow embedding of [src/rss_reader_custom_parser.py]:
    [fetch_feed_content], [find_element_text] and [parse_feed_custom],
    together with the parts of the libraries they call
    ([xml.etree.ElementTree], [xml.etree.ElementPath], [requests]).

    Conventions.
    - A Python [str] is a [string]; every character stands for the code
      point of the same number (0..255).  [None] is [None] of [option].
    - A Python exception is a value of [exn]; code that may raise
      returns an [outcome].
    - [sys.stderr] is a list of lines; a function that prints takes the
      lines printed so far and returns the lines printed after it ran. *)

From Stdlib Require Import ZArith String Ascii List DecimalString.
From stdpp Require Import base option list strings gmap.

Local Open Scope string_scope.
Local Open Scope Z_scope.

(** ** Python strings *)

Module Py.

(** [str.isspace] on one character, for code points below 256:
    TAB, LF, VT, FF, CR, FS, GS, RS, US, SPACE, NEL (0x85) and
    NBSP (0xA0). *)
Definition isspace (c : ascii) : bool :=
  let n := nat_of_ascii c in
  ((9 <=? n) && (n <=? 13) || (28 <=? n) && (n <=? 32)
   || (n =? 133) || (n =? 160))%nat.

(** [s.lstrip()] *)
Fixpoint lstrip (s : string) : string :=
  match s with
  | String c r => if isspace c then lstrip r else s
  | EmptyString => EmptyString
  end.

(** [s.rstrip()]: a character is dropped when it is white space and
    everything after it has been dropped. *)
Fixpoint rstrip (s : string) : string :=
  match s with
  | String c r =>
      match rstrip r with
      | EmptyString => if isspace c then EmptyString else String c EmptyString
      | r' => String c r'
      end
  | EmptyString => EmptyString
  end.

(** [s.strip()] *)
Definition strip (s : string) : string := rstrip (lstrip s).

(** [s.endswith(suffix)] *)
Fixpoint endswith (s suffix : string) : bool :=
  String.eqb s suffix
  || match s with
     | String _ r => endswith r suffix
     | EmptyString => false
     end.

(** [s.startswith(prefix)] *)
Definition startswith (s pre : string) : bool := String.prefix pre s.

(** [c in s] for a one-character string [c] *)
Fixpoint contains (c : ascii) (s : string) : bool :=
  match s with
  | String a r => Ascii.eqb a c || contains c r
  | EmptyString => false
  end.

(** [s.split(c)[0]]: the part of [s] before the first [c] (all of
    [s] when [c] does not occur). *)
Fixpoint before (c : ascii) (s : string) : string :=
  match s with
  | String a r => if Ascii.eqb a c then EmptyString else String a (before c r)
  | EmptyString => EmptyString
  end.

(** [s.split(c, 1)[1]] when [c] occurs in [s]: the part after the
    first [c]. *)
Fixpoint after (c : ascii) (s : string) : string :=
  match s with
  | String a r => if Ascii.eqb a c then r else after c r
  | EmptyString => EmptyString
  end.

(** [s[n:]] and [s[:n]] for [n >= 0] *)
Fixpoint drop (n : nat) (s : string) : string :=
  match n, s with
  | S n', String _ r => drop n' r
  | _, _ => s
  end.

Fixpoint take (n : nat) (s : string) : string :=
  match n, s with
  | S n', String a r => String a (take n' r)
  | _, _ => EmptyString
  end.

(** [s[:-1]] *)
Fixpoint drop_last (s : string) : string :=
  match s with
  | String a EmptyString => EmptyString
  | String a r => String a (drop_last r)
  | EmptyString => EmptyString
  end.

(** Every character of [s] is white space ([s.isspace()] for a
    non-empty [s]). *)
Fixpoint all_space (s : string) : bool :=
  match s with
  | String c r => isspace c && all_space r
  | EmptyString => true
  end.

(** Truth value of an [Optional[str]]: [None] and [''] are false. *)
Definition truthy (o : option string) : bool :=
  match o with
  | Some s => negb (String.eqb s "")
  | None => false
  end.

(** [str(n)] for an integer *)
Definition str_of_int (n : Z) : string := NilZero.string_of_int (Z.to_int n).

End Py.

(** ** Exceptions and the two effects of the program *)

(** The exception classes the program can meet.  Every one of them
    derives from [Exception]; [ParseError] derives from [SyntaxError],
    [HTTPError] from [requests.exceptions.RequestException].  The
    argument is [str(e)]. *)
Inductive exn : Type :=
| ParseError (msg : string)           (* xml.etree.ElementTree.ParseError *)
| SyntaxError (msg : string)
| HTTPError (msg : string)            (* requests.exceptions.HTTPError *)
| RequestException (msg : string)     (* Timeout, ConnectionError, ... *)
| UnicodeDecodeError (msg : string)
| Exception (msg : string).           (* any other subclass of Exception *)

Definition str_of_exn (e : exn) : string :=
  match e with
  | ParseError m | SyntaxError m | HTTPError m
  | RequestException m | UnicodeDecodeError m | Exception m => m
  end.

(** [isinstance(e, requests.exceptions.RequestException)] *)
Definition is_RequestException (e : exn) : bool :=
  match e with
  | HTTPError _ | RequestException _ => true
  | _ => false
  end.

Inductive outcome (A : Type) : Type :=
| Return (a : A)
| Raise (e : exn).
Arguments Return {A} a.
Arguments Raise {A} e.

#[export] Instance outcome_ret : MRet outcome := λ A a, Return a.
#[export] Instance outcome_bind : MBind outcome := λ A B k m,
  match m with
  | Return a => k a
  | Raise e => Raise e
  end.

(** A computation that may print to [sys.stderr] and may raise. *)
Definition M (A : Type) : Type := list string → outcome A * list string.

#[export] Instance M_ret : MRet M := λ A a err, (Return a, err).
#[export] Instance M_bind : MBind M := λ A B k m err,
  match m err with
  | (Return a, err') => k a err'
  | (Raise e, err') => (Raise e, err')
  end.

(** [print(line, file=sys.stderr)] *)
Definition print_stderr (line : string) : M unit :=
  λ err, (Return tt, (err ++ [line])%list).

(** A call that raises or returns but prints nothing. *)
Definition lift {A} (o : outcome A) : M A := λ err, (o, err).

(** [try: body / except Exception as e: handler(e)] *)
Definition try_except {A} (body : M A) (handler : exn → M A) : M A :=
  λ err,
    match body err with
    | (Raise e, err') => handler e err'
    | r => r
    end.

(** ** xml.etree.ElementTree *)

Module ET.

(** An [Element] as the program reads it: [tag] is the universal name
    ([local] or [{uri}local]), [attrib] the attribute dictionary,
    [text] the character data before the first child ([None] when
    there is none), [children] the child elements in document order.
    Comments and processing instructions are not part of a tree built
    by [ET.fromstring]. *)
#[warnings="-register-all"] Inductive Element : Type := mkElement {
  tag : string;
  attrib : gmap string string;
  text : option string;
  children : list Element
}.

(** [elem.get(key)] *)
Definition get (elem : Element) (key : string) : option string :=
  attrib elem !! key.

(** [ElementPath.xpath_tokenizer], for a pattern that is a single name
    token (every path of the program is one: [channel], [title],
    [atom:title], ...).  It yields the qualified name to look for, or
    raises [SyntaxError] when the prefix is not in the prefix map; an
    empty or absent map has no prefix. *)
Definition xpath_tokenizer (pattern : string)
    (namespaces : gmap string string) : outcome string :=
  if Py.startswith pattern "{" then Return pattern
  else if Py.contains ":" pattern then
    let prefix := Py.before ":" pattern in
    let uri := Py.after ":" pattern in
    match namespaces !! prefix with
    | Some ns => Return ("{" ++ ns ++ "}" ++ uri)
    | None =>
        Raise (SyntaxError ("prefix '" ++ prefix ++ "' not found in prefix map"))
    end
  else
    match namespaces !! "" with
    | Some default_namespace =>
        if Py.truthy (Some default_namespace)
        then Return ("{" ++ default_namespace ++ "}" ++ pattern)
        else Return pattern
    | None => Return pattern
    end.

(** [ElementPath._is_wildcard_tag] *)
Definition _is_wildcard_tag (tag : string) : bool :=
  String.eqb (Py.take 3 tag) "{*}" || Py.endswith tag "}*".

(** [ElementPath._prepare_tag] (Python 3.8 and later): the test the
    selector applies to the tag of an element, for a wildcard [tag].
    The last case is not reached under [_is_wildcard_tag]; the paths
    of the program end in a fixed name, so only the case [{*}name] can
    arise, when the root namespace is [*]. *)
Definition _prepare_tag (tag el_tag : string) : bool :=
  if String.eqb tag "{*}*" then true
  else if String.eqb tag "{}*" then negb (Py.startswith el_tag "{")
  else if String.eqb (Py.take 3 tag) "{*}" then
    String.eqb el_tag (Py.drop 3 tag) || Py.endswith el_tag (Py.drop 2 tag)
  else if Py.endswith tag "}*" then Py.startswith el_tag (Py.drop_last tag)
  else false.

(** [ElementPath.prepare_child]: the test on a child's tag. *)
Definition prepare_child (tag el_tag : string) : bool :=
  if _is_wildcard_tag tag then _prepare_tag tag el_tag
  else
    let tag := if String.eqb (Py.take 2 tag) "{}" then Py.drop 2 tag else tag in
    String.eqb el_tag tag.

(** [ElementPath.iterfind] for a one-step path: the children of
    [elem] that pass the test, in document order. *)
Definition iterfind (elem : Element) (path : string)
    (namespaces : gmap string string) : outcome (list Element) :=
  tag ← xpath_tokenizer path namespaces;
  mret (List.filter (λ e, prepare_child tag (ET.tag e)) (children elem)).

(** [elem.findall(path, namespaces)] *)
Definition findall := iterfind.

(** [elem.find(path, namespaces)]: the first match or [None].  A
    call without [namespaces] passes [None], which the tokenizer
    treats as the empty map. *)
Definition find (elem : Element) (path : string)
    (namespaces : gmap string string) : outcome (option Element) :=
  result ← iterfind elem path namespaces;
  mret (head result).

End ET.

Import ET.

(** ** The parsed feed *)

(** The dictionaries [parsed['feed']] and [entry_data]: both have
    exactly the keys [title], [description] and [link], each holding a
    [str] or [None]. *)
Record Fields : Type := mkFields {
  title : option string;
  description : option string;
  link : option string
}.

(** [parsed = {'feed': {...}, 'entries': [...]}] *)
Record Parsed : Type := mkParsed {
  feed : Fields;
  entries : list Fields
}.

(** ** The custom XML parser *)

(** [find_element_text], lines 77-80. *)
Definition find_element_text (parent_element : Element) (tag_name : string)
    (namespaces : gmap string string) : outcome (option string) :=
  element ← ET.find parent_element tag_name namespaces;
  mret (match element with
        | Some element =>
            if Py.truthy (text element)
            then Py.strip <$> text element
            else None
        | None => None
        end).

(** The loop of lines 139-142 and of lines 159-162 (the same text on
    [feed_link_elems] and on [item_link_elems]); [primary] is the
    value of [primary_feed_link] at the loop head. *)
Fixpoint link_loop (primary : option string) (link_elems : list Element)
    : option string :=
  match link_elems with
  | link :: rest =>
      if bool_decide (get link "rel" = Some "alternate")
         || negb (Py.truthy (get link "rel"))
      then
        let primary := get link "href" in
        if Py.truthy primary then primary else link_loop primary rest
      else link_loop primary rest
  | [] => primary
  end.

(** Lines 138-144 and 158-164: the loop, then the fallback to the
    first link's [href]. *)
Definition primary_link (link_elems : list Element) : option string :=
  let primary := link_loop None link_elems in
  match link_elems with
  | first :: _ => if negb (Py.truthy primary) then get first "href" else primary
  | [] => primary
  end.

(** The test of lines 167 and 196. *)
Definition has_content (entry_data : Fields) : bool :=
  Py.truthy (title entry_data) || Py.truthy (link entry_data).

(** The body of the loop of lines 148-168, up to the test. *)
Definition atom_entry_data (item : Element) (namespaces : gmap string string)
    : outcome Fields :=
  title ← find_element_text item "atom:title" namespaces;
  description ← find_element_text item "atom:summary" namespaces;
  description ←
    (if negb (Py.truthy description)
     then find_element_text item "atom:content" namespaces
     else mret description);
  item_link_elems ← ET.findall item "atom:link" namespaces;
  mret (mkFields title description (primary_link item_link_elems)).

(** The body of the loop of lines 189-197, up to the test. *)
Definition rss_entry_data (item : Element) (namespaces : gmap string string)
    : outcome Fields :=
  title ← find_element_text item "title" namespaces;
  link ← find_element_text item "link" namespaces;
  description ← find_element_text item "description" namespaces;
  mret (mkFields title description link).

(** [for item in items: ...; if ...: parsed['entries'].append(entry_data)];
    [acc] is [parsed['entries']] at the loop head. *)
Fixpoint collect_entries (entry_data : Element → outcome Fields)
    (items : list Element) (acc : list Fields) : outcome (list Fields) :=
  match items with
  | item :: rest =>
      e ← entry_data item;
      collect_entries entry_data rest
        (if has_content e then (acc ++ [e])%list else acc)
  | [] => mret acc
  end.

(** The lines the parser prints to [sys.stderr] (lines 174, 200, 206
    and 209). *)
Definition missing_channel_message : string :=
  "Error (Custom Parser): Could not find <channel> element in RSS feed.".

Definition unknown_feed_type_message : string :=
  "Error (Custom Parser): Unknown feed type (neither RSS nor Atom detected).".

Definition parse_error_message (e : string) : string :=
  "Error (Custom Parser): Failed to parse XML: " ++ e.

Definition unexpected_error_message (e : string) : string :=
  "An unexpected error occurred during custom parsing: " ++ e.

Section CustomParser.

(** [ET.fromstring]: the XML parser (expat).  It returns the root of
    the tree of a well-formed document and raises [ParseError] on any
    other text. *)
Variable fromstring : string → outcome Element.

(** Lines 111-114: the prefix map built from the root tag. *)
Definition root_namespaces (root : Element) : gmap string string :=
  if Py.contains "}" (tag root)
  then <["atom" := Py.drop 1 (Py.before "}" (tag root))]> ∅
  else ∅.

(** Lines 118-119. *)
Definition is_atom (root : Element) : bool :=
  bool_decide (is_Some (root_namespaces root !! "atom"))
  || Py.endswith (tag root) "feed".

Definition is_rss (root : Element) : bool := Py.endswith (tag root) "rss".

(** Lines 123-168: the Atom branch. *)
Definition parse_atom (root : Element) (namespaces : gmap string string)
    : outcome Parsed :=
  let feed_elem := root in
  title ← find_element_text feed_elem "atom:title" namespaces;
  description ← find_element_text feed_elem "atom:subtitle" namespaces;
  feed_link_elems ← ET.findall feed_elem "atom:link" namespaces;
  let primary_feed_link := primary_link feed_link_elems in
  items ← ET.findall feed_elem "atom:entry" namespaces;
  entries ← collect_entries (λ item, atom_entry_data item namespaces) items [];
  mret (mkParsed (mkFields title description primary_feed_link) entries).

(** Lines 177-197: the RSS branch once [channel] is found. *)
Definition parse_rss (channel : Element) (namespaces : gmap string string)
    : outcome Parsed :=
  title ← find_element_text channel "title" namespaces;
  description ← find_element_text channel "description" namespaces;
  link ← find_element_text channel "link" namespaces;
  items ← ET.findall channel "item" namespaces;
  entries ← collect_entries (λ item, rss_entry_data item namespaces) items [];
  mret (mkParsed (mkFields title description link) entries).

(** The [try] block of [parse_feed_custom], lines 103-203;
    [feed_content] is the non-empty text that passed line 101. *)
Definition parse_feed_custom_try (feed_content : string)
    : M (option Parsed) :=
  let feed_content := Py.strip feed_content in
  root ← lift (fromstring feed_content);
  let namespaces := root_namespaces root in
  if is_atom root then
    parsed ← lift (parse_atom root namespaces);
    mret (Some parsed)
  else if is_rss root then
    channel ← lift (ET.find root "channel" ∅);
    match channel with
    | None =>
        _ ← print_stderr missing_channel_message;
        mret None
    | Some channel =>
        parsed ← lift (parse_rss channel namespaces);
        mret (Some parsed)
    end
  else
    _ ← print_stderr unknown_feed_type_message;
    mret None.

(** The two [except] clauses, lines 205-210: [ET.ParseError] first,
    then [Exception]. *)
Definition parse_feed_custom_except (e : exn) : M (option Parsed) :=
  match e with
  | ParseError _ =>
      _ ← print_stderr (parse_error_message (str_of_exn e));
      mret None
  | _ =>
      _ ← print_stderr (unexpected_error_message (str_of_exn e));
      mret None
  end.

(** [parse_feed_custom], lines 99-210.  [feed_content] is a [str] or
    [None]; the result is the [parsed] dictionary or [None]. *)
Definition parse_feed_custom (feed_content : option string)
    : M (option Parsed) :=
  match feed_content with
  | None | Some EmptyString => mret None
  | Some feed_content =>
      try_except (parse_feed_custom_try feed_content) parse_feed_custom_except
  end.

End CustomParser.

(** ** The fetcher *)

Module Requests.

(** A [requests.Response], as far as the program reads it. *)
Record Response : Type := mkResponse {
  status_code : Z;
  reason : string;
  url : string;
  content : list Byte.byte;   (* the body as received *)
  text : string               (* the body decoded with the apparent encoding *)
}.

(** [Response.raise_for_status]: [HTTPError] for a status from 400
    to 599, nothing otherwise. *)
Definition raise_for_status (self : Response) : outcome unit :=
  if (400 <=? status_code self) && (status_code self <? 500) then
    Raise (HTTPError (Py.str_of_int (status_code self) ++ " Client Error: "
                      ++ reason self ++ " for url: " ++ url self))
  else if (500 <=? status_code self) && (status_code self <? 600) then
    Raise (HTTPError (Py.str_of_int (status_code self) ++ " Server Error: "
                      ++ reason self ++ " for url: " ++ url self))
  else Return tt.

End Requests.

Section Fetcher.

(** [requests.get(url, headers=headers, timeout=10)]: the answer of
    the network, a response (after redirections) or an exception of
    [requests]. *)
Variable requests_get : string → outcome Requests.Response.

(** [bytes.decode('utf-8')]; [None] stands for [UnicodeDecodeError]. *)
Variable decode_utf8 : list Byte.byte → option string.

(** [fetch_feed_content], lines 16-34. *)
Definition fetch_feed_content (url : string) : M (option string) :=
  try_except
    (response ← lift (requests_get url);
     _ ← lift (Requests.raise_for_status response);
     let content :=
       match decode_utf8 (Requests.content response) with
       | Some content => content
       | None => Requests.text response
       end in
     mret (Some content))
    (λ e,
       if is_RequestException e then
         _ ← print_stderr ("Error fetching URL '" ++ url ++ "': " ++ str_of_exn e);
         mret None
       else
         _ ← print_stderr
           ("An unexpected error occurred during fetch: " ++ str_of_exn e);
         mret None).

End Fetcher.

(** ** Vocabulary of the statements *)

(** A candidate the loop of lines 139-142 accepts: its [rel] is
    ["alternate"], or missing, or empty. *)
Definition preferred (link : Element) : bool :=
  bool_decide (get link "rel" = Some "alternate")
  || negb (Py.truthy (get link "rel")).

(** An accepted candidate that carries a non-empty [href]. *)
Definition usable (link : Element) : bool :=
  preferred link && Py.truthy (get link "href").

(** The [href] of the first usable candidate; the [href] of the first
    candidate when no candidate is usable. *)
Definition first_usable_href (link_elems : list Element) : option string :=
  match List.find usable link_elems with
  | Some link => get link "href"
  | None =>
      match link_elems with
      | first :: _ => get first "href"
      | [] => None
      end
  end.

(** Every candidate has a [rel] and an [href], both non-empty. *)
Definition every_rel_and_href (link_elems : list Element) : Prop :=
  Forall (λ l, Py.truthy (get l "rel") = true ∧ Py.truthy (get l "href") = true)
    link_elems.

(** The selection in the words of the specification: the first
    candidate whose [rel] is ["alternate"]; failing that, the first
    candidate without a [rel] attribute; failing that, the first
    candidate. *)
Definition spec_link_choice (link_elems : list Element) : option string :=
  match List.find (λ l, bool_decide (get l "rel" = Some "alternate")) link_elems with
  | Some link => get link "href"
  | None =>
      match List.find (λ l, bool_decide (get l "rel" = None)) link_elems with
      | Some link => get link "href"
      | None =>
          match link_elems with
          | first :: _ => get first "href"
          | [] => None
          end
      end
  end.

(** The entries the loops of lines 148-168 and 189-197 extract from
    [root], before the test of lines 167 and 196, in document order. *)
Definition extracted_from (root : Element) (extracted : list Fields) : Prop :=
  let namespaces := root_namespaces root in
  if is_atom root then
    ∃ items,
      ET.findall root "atom:entry" namespaces = Return items
      ∧ Forall2 (λ item e, atom_entry_data item namespaces = Return e)
          items extracted
  else
    ∃ channel items,
      ET.find root "channel" ∅ = Return (Some channel)
      ∧ ET.findall channel "item" namespaces = Return items
      ∧ Forall2 (λ item e, rss_entry_data item namespaces = Return e)
          items extracted.

(** ** Documents of the examples *)

(** An element written with its attributes as a list. *)
Definition element (tag : string) (attrib : list (string * string))
    (text : option string) (children : list Element) : Element :=
  mkElement tag (list_to_map attrib) text children.

(** The text [ name="value"] of an attribute; character 34 is the
    double quote. *)
Definition attr (name value : string) : string :=
  " " ++ name ++ "=" ++ String "034" "" ++ value ++ String "034" "".

(** A parser known at one document: [root] for the text [document].
    It stands for [ET.fromstring] in the examples, which parse no
    other text. *)
Definition fromstring_at (document : string) (root : Element)
    : string → outcome Element :=
  λ text,
    if String.eqb text document then Return root
    else Raise (ParseError "syntax error: line 1, column 0").

(** The Atom example of the specification: a [feed] root without a
    namespace declaration. *)
Definition plain_feed_document : string :=
  "<feed><entry><link" ++ attr "rel" "self" ++ attr "href" "http://x/s"
  ++ "/><link" ++ attr "rel" "alternate" ++ attr "href" "http://x/a"
  ++ "/><title>B</title></entry></feed>".

Definition plain_feed_tree : Element :=
  element "feed" [] None
    [element "entry" [] None
       [element "link" [("rel", "self"); ("href", "http://x/s")] None [];
        element "link" [("rel", "alternate"); ("href", "http://x/a")] None [];
        element "title" [] (Some "B") []]].

(** The same entry under the Atom namespace, and an entry whose first
    link has no [rel]. *)
Definition atom_ns : string := "http://www.w3.org/2005/Atom".

Definition atom_tag (local : string) : string := "{" ++ atom_ns ++ "}" ++ local.

Definition atom_feed_document : string :=
  "<feed" ++ attr "xmlns" atom_ns ++ "><entry><link" ++ attr "href" "http://x/t"
  ++ "/><link" ++ attr "rel" "alternate" ++ attr "href" "http://x/a"
  ++ "/><title>B</title></entry></feed>".

Definition atom_feed_links : list Element :=
  [element (atom_tag "link") [("href", "http://x/t")] None [];
   element (atom_tag "link") [("rel", "alternate"); ("href", "http://x/a")] None []].

Definition atom_feed_tree : Element :=
  element (atom_tag "feed") [] None
    [element (atom_tag "entry") [] None
       (atom_feed_links ++ [element (atom_tag "title") [] (Some "B") []])].

(** The entry of the Atom example under the Atom namespace. *)
Definition atom_self_document : string :=
  "<feed" ++ attr "xmlns" atom_ns ++ "><entry><link" ++ attr "rel" "self"
  ++ attr "href" "http://x/s" ++ "/><link" ++ attr "rel" "alternate"
  ++ attr "href" "http://x/a" ++ "/><title>B</title></entry></feed>".

Definition atom_self_tree : Element :=
  element (atom_tag "feed") [] None
    [element (atom_tag "entry") [] None
       [element (atom_tag "link") [("rel", "self"); ("href", "http://x/s")] None [];
        element (atom_tag "link") [("rel", "alternate"); ("href", "http://x/a")]
          None [];
        element (atom_tag "title") [] (Some "B") []]].

Definition atom_self_parsed : Parsed :=
  mkParsed (mkFields None None None)
    [mkFields (Some "B") None (Some "http://x/a")].

(** A root in a namespace that is not Atom's, with a name that ends
    neither in [feed] nor in [rss]. *)
Definition foreign_document : string :=
  "<foo" ++ attr "xmlns" "http://example.org/ns" ++ "><title>T</title></foo>".

Definition foreign_tree : Element :=
  element "{http://example.org/ns}foo" [] None
    [element "{http://example.org/ns}title" [] (Some "T") []].

(** An RSS channel whose title is three spaces. *)
Definition blank_title_document : string :=
  "<rss><channel><title>   </title></channel></rss>".

Definition blank_title_channel : Element :=
  element "channel" [] None [element "title" [] (Some "   ") []].

Definition blank_title_tree : Element :=
  element "rss" [] None [blank_title_channel].

(** An RSS root without [channel]. *)
Definition no_channel_document : string := "<rss><item><title>A</title></item></rss>".

Definition no_channel_tree : Element :=
  element "rss" [] None
    [element "item" [] None [element "title" [] (Some "A") []]].

(** The RSS example of the specification. *)
Definition rss_document : string :=
  "<rss><channel><title>Ex</title><item><title>A</title><link>http://x/1</link></item></channel></rss>".

Definition rss_tree : Element :=
  element "rss" [] None
    [element "channel" [] None
       [element "title" [] (Some "Ex") [];
        element "item" [] None
          [element "title" [] (Some "A") [];
           element "link" [] (Some "http://x/1") []]]].

(** An item without title and link but with a description, after an
    item with a title. *)
Definition untitled_item_document : string :=
  "<rss><channel><item><title>A</title></item><item><title/><link/><description>D</description></item></channel></rss>".

Definition untitled_item_tree : Element :=
  element "rss" [] None
    [element "channel" [] None
       [element "item" [] None [element "title" [] (Some "A") []];
        element "item" [] None
          [element "title" [] None [];
           element "link" [] None [];
           element "description" [] (Some "D") []]]].

(** The unknown-dialect example of the specification. *)
Definition unknown_document : string := "<foo><bar/></foo>".

Definition unknown_tree : Element :=
  element "foo" [] None [element "bar" [] None []].

(** Children named [title] in the namespace [*], in no namespace and
    in the namespace [u], under a root in the namespace [*]. *)
Definition star_tree : Element :=
  element "{*}x" [] None
    [element "{*}title" [] (Some "a") [];
     element "title" [] (Some "b") [];
     element "{u}title" [] (Some "c") []].

(** A text with an unclosed tag, and what expat says of it. *)
Definition malformed_document : string :=
  "<rss><channel><title>Oops</channel></rss>".

Definition malformed_detail : string := "mismatched tag: line 1, column 27".

(** A response [304 Not Modified]: no redirection to follow, an empty
    body. *)
Definition not_modified (url : string) : Requests.Response :=
  Requests.mkResponse 304 "Not Modified" url [] "".

Definition not_found (url : string) : Requests.Response :=
  Requests.mkResponse 404 "Not Found" url [] "".

(** ** The other lookup helper *)

(** [find_element_link], lines 82-96.  The value of the inner [match]
    is the value of the [return] reached inside the first [if], when
    one is reached. *)
Definition find_element_link (parent_element : Element) (tag_name : string)
    (namespaces : gmap string string) : outcome (option string) :=
  link_element ← ET.find parent_element tag_name namespaces;
  let returned :=
    match link_element with
    | Some link_element =>
        let href := get link_element "href" in
        if Py.truthy href then Some href
        else if Py.truthy (text link_element)
             then Some (Py.strip <$> text link_element)
             else None
    | None => None
    end in
  match returned with
  | Some value => mret value
  | None =>
      if String.eqb tag_name "link" && Py.endswith (tag parent_element) "channel"
      then find_element_text parent_element "link" namespaces
      else mret None
  end.

(** ** The console *)

Module IO.

(** What is written to [sys.stdout]: the text of a [print] call (a
    line break follows it) or the prompt of an [input] call (none
    does). *)
Inductive written : Type :=
| Printed (text : string)
| Prompted (prompt : string).

(** The state a run of the program works on: what was written to
    [sys.stdout], the lines printed to [sys.stderr], and the lines
    still to be read from [sys.stdin]. *)
Record World : Type := mkWorld {
  stdout : list written;
  stderr : list string;
  stdin : list string
}.

(** How a call ends: it returns, it raises, or [sys.exit] was called
    ([SystemExit] is no [Exception]). *)
Inductive result (A : Type) : Type :=
| Done (a : A)
| Raised (e : exn)
| Exited (code : Z).
Arguments Done {A} a.
Arguments Raised {A} e.
Arguments Exited {A} code.

Definition io (A : Type) : Type := World → result A * World.

#[global] Instance io_ret : MRet io := λ A a w, (Done a, w).
#[global] Instance io_bind : MBind io := λ A B k m w,
  match m w with
  | (Done a, w') => k a w'
  | (Raised e, w') => (Raised e, w')
  | (Exited code, w') => (Exited code, w')
  end.

(** [print(text)] *)
Definition print (text : string) : io unit :=
  λ w, (Done tt, mkWorld (stdout w ++ [Printed text]) (stderr w) (stdin w)).

(** [input(prompt)]: the next line of [sys.stdin], without its line
    break; [EOFError] when there is none. *)
Definition input (prompt : string) : io string :=
  λ w,
    let out := (stdout w ++ [Prompted prompt])%list in
    match stdin w with
    | line :: rest => (Done line, mkWorld out (stderr w) rest)
    | [] => (Raised (Exception "EOF when reading a line"), mkWorld out (stderr w) [])
    end.

(** [sys.exit(code)] *)
Definition exit {A} (code : Z) : io A := λ w, (Exited code, w).

(** A call that prints to [sys.stderr] only. *)
Definition of_M {A} (m : M A) : io A :=
  λ w,
    match m (stderr w) with
    | (Return a, err) => (Done a, mkWorld (stdout w) err (stdin w))
    | (Raise e, err) => (Raised e, mkWorld (stdout w) err (stdin w))
    end.

End IO.

(** [s * n] *)
Fixpoint py_mul (s : string) (n : nat) : string :=
  match n with
  | S n' => s ++ py_mul s n'
  | O => ""
  end.

(** [a or b] on values that are a [str] or [None]. *)
Definition py_or (a b : option string) : option string :=
  if Py.truthy a then a else b.

(** [f"{value}"] for a value that is a [str] or [None]. *)
Definition py_format (value : option string) : string :=
  match value with
  | Some s => s
  | None => "None"
  end.

(** The line break. *)
Definition nl : string := String "010" "".

(** ** The library parser *)

Module Feedparser.

(** A [FeedParserDict] as the program reads it: the value of
    [d.get(key)], a [str] or [None]. *)
Definition dict : Type := string → option string.

(** The result of [feedparser.parse]: [bozo_exception] is the text of
    [feed_data['bozo_exception']] when the key is there. *)
Record FeedData : Type := mkFeedData {
  bozo : bool;
  bozo_exception : option string;
  feed : dict;
  entries : list dict
}.

End Feedparser.

Section LibraryParser.

(** Whether [import feedparser] succeeds. *)
Variable feedparser_installed : bool.

(** [feedparser.parse] *)
Variable feedparser_parse : string → outcome Feedparser.FeedData.

(** The dictionary built for an entry, lines 63-67. *)
Definition library_entry (entry : Feedparser.dict) : Fields :=
  mkFields (entry "title")
    (py_or (entry "description") (entry "summary"))
    (entry "link").

(** [parse_feed_library], lines 37-74. *)
Definition parse_feed_library (feed_content : option string)
    : M (option Parsed) :=
  if negb feedparser_installed then
    _ ← print_stderr "Error: 'feedparser' library is required for standard parsing.";
    _ ← print_stderr "Please install it using: pip install feedparser";
    mret None
  else
    match feed_content with
    | None | Some EmptyString => mret None
    | Some feed_content =>
        try_except
          (feed_data ← lift (feedparser_parse feed_content);
           _ ← (if Feedparser.bozo feed_data then
                  let bozo_exception :=
                    default "Unknown parsing error"
                      (Feedparser.bozo_exception feed_data) in
                  print_stderr
                    ("Warning (feedparser): Feed may be malformed. Parser message: "
                     ++ bozo_exception)
                else mret tt);
           let feed := Feedparser.feed feed_data in
           mret (Some
                   (mkParsed
                      (mkFields (feed "title")
                         (py_or (feed "description") (feed "subtitle"))
                         (feed "link"))
                      (List.map library_entry (Feedparser.entries feed_data)))))
          (λ e,
             _ ← print_stderr
               ("An unexpected error occurred during feedparser parsing: "
                ++ str_of_exn e);
             mret None)
    end.

End LibraryParser.

(** ** The display *)

Section Display.

(** [re.sub(pattern, repl, string)], [html.unescape(s)] and
    [textwrap.fill(text, width=..., initial_indent=...,
    subsequent_indent=...)]. *)
Variable re_sub : string → string → string → string.
Variable html_unescape : string → string.
Variable textwrap_fill : string → Z → string → string → string.

(** [DESCRIPTION_WRAP_WIDTH], line 12. *)
Definition DESCRIPTION_WRAP_WIDTH : nat := 80.

(** The body of the loop of lines 238-253. *)
Definition display_entry (entry : Fields) : IO.io unit :=
  let title := title entry in
  let link := link entry in
  let description := description entry in
  _ ← IO.print (nl ++ "* Title: " ++ py_format title);
  _ ← IO.print ("  Link: " ++ py_format link);
  if Py.truthy description then
    let cleaned_description :=
      Py.strip (re_sub "<[^<]+?>" " " (py_format description)) in
    let cleaned_description := html_unescape cleaned_description in
    let wrapped_description :=
      textwrap_fill cleaned_description (Z.of_nat DESCRIPTION_WRAP_WIDTH)
        "  Desc: " "        " in
    IO.print wrapped_description
  else IO.print "  Desc: Not Available".

(** [for entry in entries: ...] *)
Fixpoint display_entries (entries : list Fields) : IO.io unit :=
  match entries with
  | entry :: rest => _ ← display_entry entry; display_entries rest
  | [] => mret tt
  end.

(** [display_parsed_data], lines 214-255, on what a parser returned:
    [None] or a dictionary in which every key is set, so that no
    default of a [get] is used. *)
Definition display_parsed_data (parsed_data : option Parsed) (url : string)
    : IO.io unit :=
  match parsed_data with
  | None =>
      IO.of_M (print_stderr ("No data to display for " ++ url ++ "."))
  | Some parsed_data =>
      _ ← IO.print (py_mul "-" (DESCRIPTION_WRAP_WIDTH + 4));
      _ ← IO.print ("Feed Source: " ++ url);
      let feed_info := feed parsed_data in
      let feed_title := title feed_info in
      let feed_description := description feed_info in
      _ ← IO.print (nl ++ "--- Feed: " ++ py_format feed_title ++ " ---");
      _ ← (if Py.truthy feed_description
           then IO.print ("Description: " ++ py_format feed_description ++ nl)
           else mret tt);
      let entries := entries parsed_data in
      match entries with
      | [] =>
          _ ← IO.print "No entries found in this feed.";
          IO.print (py_mul "-" (DESCRIPTION_WRAP_WIDTH + 4))
      | _ =>
          _ ← IO.print "--- Entries ---";
          _ ← display_entries entries;
          IO.print (py_mul "-" (DESCRIPTION_WRAP_WIDTH + 4))
      end
  end.

End Display.

(** ** The command line *)

(** The loop of lines 281-285 (and of lines 95-99 of
    [rss_reader_multi.py]): [lines] is what is left of [sys.stdin],
    [urls] the list collected so far, [out] what was written to
    [sys.stdout].  Each turn writes the prompt and reads one line. *)
Fixpoint read_urls (lines : list string) (urls : list string)
    (out : list IO.written)
    : IO.result (list string) * (list IO.written * list string) :=
  let prompt :=
    "URL #" ++ Py.str_of_int (Z.of_nat (length urls) + 1) ++ ": " in
  let out := (out ++ [IO.Prompted prompt])%list in
  match lines with
  | line :: rest =>
      let url := Py.strip line in
      if negb (Py.truthy (Some url)) then (IO.Done urls, (out, rest))
      else read_urls rest (urls ++ [url])%list out
  | [] => (IO.Raised (Exception "EOF when reading a line"), (out, []))
  end.

(** [while True: ...] started with [urls = []]. *)
Definition input_urls : IO.io (list string) :=
  λ w,
    let '(r, (out, rest)) := read_urls (IO.stdin w) [] (IO.stdout w) in
    (r, IO.mkWorld out (IO.stderr w) rest).


(** The namespace [argparse] returns, line 276. *)
Record Args : Type := mkArgs {
  urls : list string;
  use_custom_parser : bool;
  input : bool
}.

(** [get_feed_urls_from_args], lines 258-263. *)
Definition get_feed_urls_from_args (args : Args) : IO.io (list string) :=
  match urls args with
  | [] =>
      _ ← IO.of_M (print_stderr "Error: No feed URLs provided.");
      IO.exit 1
  | _ => mret (urls args)
  end.

Section Main.

Variable fromstring : string → outcome Element.
Variable feedparser_installed : bool.
Variable feedparser_parse : string → outcome Feedparser.FeedData.
Variable requests_get : string → outcome Requests.Response.
Variable decode_utf8 : list Byte.byte → option string.
Variable re_sub : string → string → string → string.
Variable html_unescape : string → string.
Variable textwrap_fill : string → Z → string → string → string.

(** The body of the loop of lines 301-316. *)
Definition process_feed (parse_function : option string → M (option Parsed))
    (feed_url : string) : IO.io unit :=
  _ ← IO.print (nl ++ ">>> Processing feed: " ++ feed_url);
  _ ← IO.print "Fetching content...";
  feed_content ← IO.of_M (fetch_feed_content requests_get decode_utf8 feed_url);
  _ ← (if Py.truthy feed_content then
         _ ← IO.print "Parsing feed...";
         parsed_data ← IO.of_M (parse_function feed_content);
         match parsed_data with
         | Some _ =>
             _ ← IO.print "Displaying feed:";
             display_parsed_data re_sub html_unescape textwrap_fill
               parsed_data feed_url
         | None =>
             IO.print ("Failed to parse the feed content for " ++ feed_url ++ ".")
         end
       else
         IO.print ("Failed to fetch the feed content for " ++ feed_url ++ "."));
  IO.print "<<< Finished processing feed.".

(** [for feed_url in feed_urls: ...] *)
Fixpoint process_feeds (parse_function : option string → M (option Parsed))
    (feed_urls : list string) : IO.io unit :=
  match feed_urls with
  | feed_url :: rest =>
      _ ← process_feed parse_function feed_url;
      process_feeds parse_function rest
  | [] => mret tt
  end.

(** [main], lines 267-316, from the parsed arguments on. *)
Definition main (args : Args) : IO.io unit :=
  feed_urls ←
    (if input args then
       _ ← IO.print
         "Enter RSS feed URLs one by one. Press Enter on an empty line to finish.";
       feed_urls ← input_urls;
       match feed_urls with
       | [] => _ ← IO.print "No URLs entered via input. Exiting."; IO.exit 1
       | _ => mret feed_urls
       end
     else get_feed_urls_from_args args);
  parse_function ←
    (if use_custom_parser args then
       _ ← IO.print "Using CUSTOM XML parser.";
       mret (parse_feed_custom fromstring)
     else
       _ ← IO.print "Using 'feedparser' library.";
       mret (parse_feed_library feedparser_installed feedparser_parse));
  process_feeds parse_function feed_urls.

End Main.

(** ** Vocabulary of the further statements *)

(** The first child of [elem] whose tag is exactly [name]. *)
Definition first_child (elem : Element) (name : string) : option Element :=
  head (List.filter (λ e, String.eqb (tag e) name) (children elem)).

(** The element is there and its text has a character that is not
    white space. *)
Definition has_visible_text (element : option Element) : bool :=
  match element with
  | Some el =>
      match text el with
      | Some t => negb (Py.all_space t)
      | None => false
      end
  | None => false
  end.

(** The local names the Atom branch looks for (lines 126-132, 154). *)
Definition atom_names : list string :=
  ["entry"; "title"; "subtitle"; "link"; "summary"; "content"].

(** The four kinds of line [parse_feed_custom] prints. *)
Definition is_parser_line (line : string) : Prop :=
  line = missing_channel_message
  ∨ line = unknown_feed_type_message
  ∨ (∃ detail, line = parse_error_message detail)
  ∨ (∃ detail, line = unexpected_error_message detail).

(** The prompt of the [i]-th turn of the input loop. *)
Definition url_prompt (i : nat) : IO.written :=
  IO.Prompted ("URL #" ++ Py.str_of_int (Z.of_nat i) ++ ": ").

(** What the loop of [main] writes for one feed: the two opening
    lines, what fetching, parsing and displaying write in the
    [middle], and the closing line. *)
Definition feed_block (feed_url : string) (middle : list IO.written)
    : list IO.written :=
  ([IO.Printed (nl ++ ">>> Processing feed: " ++ feed_url);
    IO.Printed "Fetching content..."]
   ++ middle ++ [IO.Printed "<<< Finished processing feed."])%list.

(** The line of 84 dashes. *)
Definition separator : IO.written :=
  IO.Printed (py_mul "-" (DESCRIPTION_WRAP_WIDTH + 4)).

(** The call [m] returns [a] in the world [w], having written [out]
    to [sys.stdout], left [err] on [sys.stderr] and read nothing. *)
Definition runs {A} (m : IO.io A) (w : IO.World) (a : A)
    (out : list IO.written) (err : list string) : Prop :=
  m w = (IO.Done a, IO.mkWorld (IO.stdout w ++ out) err (IO.stdin w)).

(** ** Documents of the further examples *)

(** An RSS document whose root declares a default namespace. *)
Definition namespaced_rss_document : string :=
  "<rss" ++ attr "xmlns" "http://example.org/rss"
  ++ "><channel><title>Ex</title></channel></rss>".

Definition namespaced_rss_tree : Element :=
  element "{http://example.org/rss}rss" [] None
    [element "{http://example.org/rss}channel" [] None
       [element "{http://example.org/rss}title" [] (Some "Ex") []]].

(** An Atom entry with a blank summary and a content. *)
Definition blank_summary_entry : Element :=
  element (atom_tag "entry") [] None
    [element (atom_tag "title") [] (Some "B") [];
     element (atom_tag "summary") [] (Some "  ") [];
     element (atom_tag "content") [] (Some " body ") []].

(** An RSS item whose title is blank and whose link is missing. *)
Definition blank_item : Element :=
  element "item" [] None
    [element "title" [] (Some "  ") [];
     element "description" [] (Some "D") []].

(** A channel whose link has an empty [href] and a text. *)
Definition channel_with_link : Element :=
  element "channel" [] None
    [element "link" [("href", "")] (Some " http://x/ ") []].

(** A response [200 OK] with the given body. *)
Definition ok_response (body : string) (url : string) : Requests.Response :=
  Requests.mkResponse 200 "OK" url [] body.

(** A network with three addresses: a feed, a time-out, an empty
    body. *)
Definition demo_get (url : string) : outcome Requests.Response :=
  if String.eqb url "http://a" then Return (ok_response rss_document url)
  else if String.eqb url "http://b" then Raise (RequestException "timed out")
  else Return (ok_response "" url).

(** A feed as [feedparser] returns it for a document it had to
    repair: one entry, without title and link. *)
Definition bozo_feed : Feedparser.FeedData :=
  Feedparser.mkFeedData true (Some "not well-formed (invalid token)")
    (λ key, if String.eqb key "title" then Some "Ex" else None)
    [λ key, if String.eqb key "summary" then Some "S" else None].

(** ** The selector cache of the library *)

Module Cached.

(** [ElementPath._cache]: the compiled selector of every path looked
    up so far, under the key made of the path and of the sorted items
    of the prefix map.  The selector of a one-step path is fixed by
    the qualified name it tests for, which stands for it here. *)
Definition cache : Type := gmap (string * gmap string string) string.

(** What a call works on: the lines printed to [sys.stderr] and the
    selector cache. *)
Record Env : Type := mkEnv {
  lines : list string;
  selectors : cache
}.

Definition S (A : Type) : Type := Env → outcome A * Env.

#[global] Instance S_ret : MRet S := λ A a env, (Return a, env).
#[global] Instance S_bind : MBind S := λ A B k m env,
  match m env with
  | (Return a, env') => k a env'
  | (Raise e, env') => (Raise e, env')
  end.

Definition print_stderr (line : string) : S unit :=
  λ env, (Return tt, mkEnv (lines env ++ [line]) (selectors env)).

Definition lift {A} (o : outcome A) : S A := λ env, (o, env).

Definition try_except {A} (body : S A) (handler : exn → S A) : S A :=
  λ env,
    match body env with
    | (Raise e, env') => handler e env'
    | r => r
    end.

(** [ElementPath.iterfind] with its cache, for a one-step path.  On a
    hit the cached selector runs.  On a miss the cache is emptied when
    it holds more than 100 selectors, the path is compiled, which may
    raise, and the selector is stored. *)
Definition iterfind (elem : Element) (path : string)
    (namespaces : gmap string string) : S (list Element) :=
  λ env,
    let cache_key := (path, namespaces) in
    match selectors env !! cache_key with
    | Some tag =>
        (Return (List.filter (λ e, prepare_child tag (ET.tag e)) (children elem)),
         env)
    | None =>
        let _cache :=
          if (100 <? size (selectors env))%nat then ∅ else selectors env in
        match xpath_tokenizer path namespaces with
        | Return tag =>
            (Return (List.filter (λ e, prepare_child tag (ET.tag e))
                       (children elem)),
             mkEnv (lines env) (<[cache_key := tag]> _cache))
        | Raise e => (Raise e, mkEnv (lines env) _cache)
        end
    end.

Definition findall := iterfind.

Definition find (elem : Element) (path : string)
    (namespaces : gmap string string) : S (option Element) :=
  result ← iterfind elem path namespaces;
  mret (head result).

(** [elem.find(name)] without prefix map and with a plain name: the
    accelerated [Element.find] compares the tags of the children
    itself and does not go through [ElementPath]. *)
Definition find_plain_name (elem : Element) (name : string)
    : option Element :=
  head (List.filter (λ e, String.eqb (ET.tag e) name) (children elem)).

Definition find_element_text (parent_element : Element) (tag_name : string)
    (namespaces : gmap string string) : S (option string) :=
  element ← find parent_element tag_name namespaces;
  mret (match element with
        | Some element =>
            if Py.truthy (text element)
            then Py.strip <$> text element
            else None
        | None => None
        end).

Definition atom_entry_data (item : Element) (namespaces : gmap string string)
    : S Fields :=
  title ← find_element_text item "atom:title" namespaces;
  description ← find_element_text item "atom:summary" namespaces;
  description ←
    (if negb (Py.truthy description)
     then find_element_text item "atom:content" namespaces
     else mret description);
  item_link_elems ← findall item "atom:link" namespaces;
  mret (mkFields title description (primary_link item_link_elems)).

Definition rss_entry_data (item : Element) (namespaces : gmap string string)
    : S Fields :=
  title ← find_element_text item "title" namespaces;
  link ← find_element_text item "link" namespaces;
  description ← find_element_text item "description" namespaces;
  mret (mkFields title description link).

Fixpoint collect_entries (entry_data : Element → S Fields)
    (items : list Element) (acc : list Fields) : S (list Fields) :=
  match items with
  | item :: rest =>
      e ← entry_data item;
      collect_entries entry_data rest
        (if has_content e then (acc ++ [e])%list else acc)
  | [] => mret acc
  end.

Definition parse_atom (root : Element) (namespaces : gmap string string)
    : S Parsed :=
  let feed_elem := root in
  title ← find_element_text feed_elem "atom:title" namespaces;
  description ← find_element_text feed_elem "atom:subtitle" namespaces;
  feed_link_elems ← findall feed_elem "atom:link" namespaces;
  let primary_feed_link := primary_link feed_link_elems in
  items ← findall feed_elem "atom:entry" namespaces;
  entries ← collect_entries (λ item, atom_entry_data item namespaces) items [];
  mret (mkParsed (mkFields title description primary_feed_link) entries).

Definition parse_rss (channel : Element) (namespaces : gmap string string)
    : S Parsed :=
  title ← find_element_text channel "title" namespaces;
  description ← find_element_text channel "description" namespaces;
  link ← find_element_text channel "link" namespaces;
  items ← findall channel "item" namespaces;
  entries ← collect_entries (λ item, rss_entry_data item namespaces) items [];
  mret (mkParsed (mkFields title description link) entries).

Section Parser.

Variable fromstring : string → outcome Element.

Definition parse_feed_custom_try (feed_content : string)
    : S (option Parsed) :=
  let feed_content := Py.strip feed_content in
  root ← lift (fromstring feed_content);
  let namespaces := root_namespaces root in
  if is_atom root then
    parsed ← parse_atom root namespaces;
    mret (Some parsed)
  else if is_rss root then
    match find_plain_name root "channel" with
    | None =>
        _ ← print_stderr missing_channel_message;
        mret None
    | Some channel =>
        parsed ← parse_rss channel namespaces;
        mret (Some parsed)
    end
  else
    _ ← print_stderr unknown_feed_type_message;
    mret None.

Definition parse_feed_custom_except (e : exn) : S (option Parsed) :=
  match e with
  | ParseError _ =>
      _ ← print_stderr (parse_error_message (str_of_exn e));
      mret None
  | _ =>
      _ ← print_stderr (unexpected_error_message (str_of_exn e));
      mret None
  end.

(** [parse_feed_custom], lines 99-210, with the cache of the library
    it reads and fills. *)
Definition parse_feed_custom (feed_content : option string)
    : S (option Parsed) :=
  match feed_content with
  | None | Some EmptyString => mret None
  | Some feed_content =>
      try_except (parse_feed_custom_try feed_content) parse_feed_custom_except
  end.

End Parser.

(** Every cached selector is the one its path compiles to: the cache
    is written by [iterfind] alone. *)
Definition coherent (c : cache) : Prop :=
  ∀ path namespaces tag,
    c !! (path, namespaces) = Some tag →
    xpath_tokenizer path namespaces = Return tag.

(** The call [m] with the cache does what the call [o] without it
    does, and keeps the cache coherent. *)
Definition refines {A} (m : S A) (o : outcome A) : Prop :=
  ∀ env,
    coherent (selectors env) →
    ∃ c, m env = (o, mkEnv (lines env) c) ∧ coherent c.

(** The same for a call that prints. *)
Definition refines_M {A} (m : S A) (m' : M A) : Prop :=
  ∀ env,
    coherent (selectors env) →
    ∃ c, m env = ((m' (lines env)).1, mkEnv (m' (lines env)).2 c) ∧ coherent c.

End Cached.

(** ** Vocabulary of the statements on fields and on the display *)

(** The field read from the text of [element]: [None] when the
    element is missing or has no text, the empty string when the text
    is white space only, and else the stripped text, which is not
    empty and is its own strip. *)
Definition field_of (element : option Element) (field : option string)
    : Prop :=
  match element with
  | None => field = None
  | Some el =>
      match text el with
      | None => field = None
      | Some t =>
          if String.eqb t "" then field = None
          else if Py.all_space t then field = Some ""
          else field = Some (Py.strip t)
               ∧ Py.strip t ≠ ""
               ∧ Py.strip (Py.strip t) = Py.strip t
      end
  end.

(** Where the text fields of the feed [p] parsed from [root] come
    from.  In the Atom branch: the feed title from [atom:title], the
    feed description from [atom:subtitle], the title of an entry from
    its [atom:title], its description from its [atom:summary] when
    that has a character that is not white space and from its
    [atom:content] otherwise.  In the RSS branch: title, description
    and link of the feed from the children of [channel], and those of
    an entry from the children of its [item]. *)
Definition text_fields_of (root : Element) (p : Parsed) : Prop :=
  let namespaces := root_namespaces root in
  if is_atom root then
    ∃ feed_title feed_subtitle items extracted,
      ET.find root "atom:title" namespaces = Return feed_title
      ∧ field_of feed_title (title (feed p))
      ∧ ET.find root "atom:subtitle" namespaces = Return feed_subtitle
      ∧ field_of feed_subtitle (description (feed p))
      ∧ ET.findall root "atom:entry" namespaces = Return items
      ∧ entries p = List.filter has_content extracted
      ∧ Forall2
          (λ item e,
             ∃ entry_title summary,
               ET.find item "atom:title" namespaces = Return entry_title
               ∧ field_of entry_title (title e)
               ∧ ET.find item "atom:summary" namespaces = Return summary
               ∧ if has_visible_text summary
                 then field_of summary (description e)
                 else ∃ content,
                        ET.find item "atom:content" namespaces = Return content
                        ∧ field_of content (description e))
          items extracted
  else
    ∃ channel feed_title feed_description feed_link items extracted,
      ET.find root "channel" ∅ = Return (Some channel)
      ∧ ET.find channel "title" namespaces = Return feed_title
      ∧ field_of feed_title (title (feed p))
      ∧ ET.find channel "description" namespaces = Return feed_description
      ∧ field_of feed_description (description (feed p))
      ∧ ET.find channel "link" namespaces = Return feed_link
      ∧ field_of feed_link (link (feed p))
      ∧ ET.findall channel "item" namespaces = Return items
      ∧ entries p = List.filter has_content extracted
      ∧ Forall2
          (λ item e,
             ∃ entry_title entry_link entry_description,
               ET.find item "title" namespaces = Return entry_title
               ∧ field_of entry_title (title e)
               ∧ ET.find item "link" namespaces = Return entry_link
               ∧ field_of entry_link (link e)
               ∧ ET.find item "description" namespaces = Return entry_description
               ∧ field_of entry_description (description e))
          items extracted.

Section DisplayedLines.

Variable re_sub : string → string → string → string.
Variable html_unescape : string → string.
Variable textwrap_fill : string → Z → string → string → string.

(** The three [print] calls for an entry: title and link, a missing
    one as the text [None], and the cleaned and wrapped description or
    the line that says there is none. *)
Definition entry_lines (entry : Fields) : list IO.written :=
  [IO.Printed (nl ++ "* Title: " ++ py_format (title entry));
   IO.Printed ("  Link: " ++ py_format (link entry));
   IO.Printed
     (match description entry with
      | Some (String _ _ as text) =>
          textwrap_fill
            (html_unescape (Py.strip (re_sub "<[^<]+?>" " " text)))
            80 "  Desc: " "        "
      | _ => "  Desc: Not Available"
      end)].

(** All that is written for a parsed feed, in order. *)
Definition feed_lines (p : Parsed) (url : string) : list IO.written :=
  ([IO.Printed (py_mul "-" 84);
    IO.Printed ("Feed Source: " ++ url);
    IO.Printed (nl ++ "--- Feed: " ++ py_format (title (feed p)) ++ " ---")]
   ++ match description (feed p) with
      | Some (String _ _ as text) => [IO.Printed ("Description: " ++ text ++ nl)]
      | _ => []
      end
   ++ match entries p with
      | [] => [IO.Printed "No entries found in this feed."]
      | _ => IO.Printed "--- Entries ---" :: concat (List.map entry_lines (entries p))
      end
   ++ [IO.Printed (py_mul "-" 84)])%list.

End DisplayedLines.

(** ** Documents of the examples on fields, text and cache *)

(** An RSS document with an XML declaration, and a parser that knows
    it and two texts that are not well-formed: the empty text and the
    document after a space. *)
Definition declared_document : string :=
  "<?xml version='1.0'?><rss><channel><title>Ex</title></channel></rss>".

Definition declared_tree : Element :=
  element "rss" [] None
    [element "channel" [] None [element "title" [] (Some "Ex") []]].

Definition declared_parser : string → outcome Element :=
  λ text,
    if String.eqb text declared_document then Return declared_tree
    else if String.eqb text "" then
      Raise (ParseError "no element found: line 1, column 0")
    else
      Raise (ParseError
               "XML or text declaration not at start of entity: line 1, column 1").

(** An Atom entry with a blank summary and no content. *)
Definition blank_summary_only_entry : Element :=
  element (atom_tag "entry") [] None
    [element (atom_tag "title") [] (Some "B") [];
     element (atom_tag "summary") [] (Some "  ") []].

Definition blank_summary_tree : Element :=
  element (atom_tag "feed") [] None [blank_summary_only_entry].

Definition blank_summary_document : string :=
  "<feed" ++ attr "xmlns" atom_ns
  ++ "><entry><title>B</title><summary>  </summary></entry></feed>".

(** A cache that holds the selector of one path. *)
Definition warm_cache : Cached.cache :=
  <[("title", ∅) := "title"]> ∅.

(** * Properties *)

(** ** Strings *)

Module PyFacts.
Import Py.

Lemma rstrip_idem s : rstrip (rstrip s) = rstrip s.
Proof.
  induction s as [|c r IH]; simpl; [reflexivity|].
  destruct (rstrip r) as [|a r'] eqn:E.
  - destruct (isspace c) eqn:Ec; simpl; [reflexivity|]. by rewrite Ec.
  - simpl in *. by rewrite IH.
Qed.

(** What [lstrip] returns is empty or starts with a character that
    is not white space. *)
Lemma lstrip_head s :
  lstrip s = "" ∨ ∃ c r, lstrip s = String c r ∧ isspace c = false.
Proof.
  induction s as [|c r IH]; simpl; [by left|].
  destruct (isspace c) eqn:Ec; [exact IH|]. right. eauto.
Qed.

Lemma rstrip_keeps_head c r :
  isspace c = false → ∃ r', rstrip (String c r) = String c r'.
Proof.
  intros Ec. simpl. destruct (rstrip r); [rewrite Ec|]; eauto.
Qed.

Lemma lstrip_strip s : lstrip (strip s) = strip s.
Proof.
  unfold strip. destruct (lstrip_head s) as [->|(c & r & -> & Ec)]; [done|].
  destruct (rstrip_keeps_head c r Ec) as [r' ->]. simpl. by rewrite Ec.
Qed.

(** A stripped string is its own strip. *)
Lemma strip_idem s : strip (strip s) = strip s.
Proof. unfold strip at 1. rewrite lstrip_strip. apply rstrip_idem. Qed.

Lemma lstrip_all_space s : all_space s = true → lstrip s = "".
Proof.
  induction s as [|c r IH]; simpl; [done|].
  intros [-> Hr]%andb_true_iff. auto.
Qed.

Lemma rstrip_empty s : rstrip s = "" → all_space s = true.
Proof.
  induction s as [|c r IH]; simpl; [done|].
  destruct (rstrip r); [|done].
  destruct (isspace c); [|done]. intros _. by rewrite IH.
Qed.

Lemma all_space_lstrip s : all_space (lstrip s) = true → all_space s = true.
Proof.
  induction s as [|c r IH]; simpl; [done|].
  destruct (isspace c) eqn:Ec; simpl; [done|]. by rewrite Ec.
Qed.

(** [strip] returns the empty string exactly on white space. *)
Lemma strip_empty_iff s : strip s = "" ↔ all_space s = true.
Proof.
  unfold strip. split.
  - intros H%rstrip_empty. by apply all_space_lstrip.
  - intros H. by rewrite lstrip_all_space.
Qed.

Lemma truthy_Some s : truthy (Some s) = true ↔ s ≠ "".
Proof.
  simpl. rewrite negb_true_iff. split.
  - intros H ->. done.
  - intros H. apply String.eqb_neq. done.
Qed.

Lemma truthy_false o : truthy o = false ↔ o = None ∨ o = Some "".
Proof.
  destruct o as [s|]; simpl.
  - rewrite negb_false_iff, String.eqb_eq. split.
    + intros ->. by right.
    + intros [?|[= ->]]; done.
  - split; [by left|done].
Qed.

End PyFacts.

(** ** Paths and lookups *)

(** Inversion of a sequence of calls that returned: every call of the
    sequence returned. *)
Ltac outcome_inv H :=
  unfold mbind, outcome_bind, mret, outcome_ret in H; cbv beta in H;
  repeat
    match type of H with
    | match ?m with Return _ => _ | Raise _ => _ end = _ =>
        let E := fresh "E" in
        destruct m eqn:E; [cbv beta in H|discriminate H]
    end.

Lemma tokenizer_prefixed (local : string) (namespaces : gmap string string) uri :
  namespaces !! "atom" = Some uri →
  xpath_tokenizer ("atom:" ++ local) namespaces = Return ("{" ++ uri ++ "}" ++ local).
Proof. intros H. unfold xpath_tokenizer. simpl. by rewrite H. Qed.

Lemma tokenizer_unbound (local : string) (namespaces : gmap string string) :
  namespaces !! "atom" = None →
  xpath_tokenizer ("atom:" ++ local) namespaces
  = Raise (SyntaxError "prefix 'atom' not found in prefix map").
Proof. intros H. unfold xpath_tokenizer. simpl. by rewrite H. Qed.

Lemma iterfind_returns elem path namespaces q :
  xpath_tokenizer path namespaces = Return q →
  iterfind elem path namespaces
  = Return (List.filter (λ e, prepare_child q (tag e)) (children elem)).
Proof. intros H. unfold iterfind, mbind, outcome_bind. by rewrite H. Qed.

Lemma iterfind_raises elem path namespaces e :
  xpath_tokenizer path namespaces = Raise e →
  iterfind elem path namespaces = Raise e.
Proof. intros H. unfold iterfind, mbind, outcome_bind. by rewrite H. Qed.

Lemma find_element_text_returns elem path namespaces q :
  xpath_tokenizer path namespaces = Return q →
  ∃ r, find_element_text elem path namespaces = Return r.
Proof.
  intros H. unfold find_element_text, find, mbind, outcome_bind.
  rewrite (iterfind_returns _ _ _ _ H). eauto.
Qed.

Lemma find_element_text_raises elem path namespaces e :
  xpath_tokenizer path namespaces = Raise e →
  find_element_text elem path namespaces = Raise e.
Proof.
  intros H. unfold find_element_text, find, mbind, outcome_bind.
  by rewrite (iterfind_raises _ _ _ _ H).
Qed.

(** ** The loop over the entries *)

Lemma collect_entries_filter entry_data items :
  ∀ acc r,
    collect_entries entry_data items acc = Return r →
    ∃ extracted,
      Forall2 (λ item e, entry_data item = Return e) items extracted
      ∧ r = (acc ++ List.filter has_content extracted)%list.
Proof.
  induction items as [|item rest IH]; intros acc r H; simpl in H.
  - injection H as <-. exists []. split; [constructor|]. by rewrite app_nil_r.
  - outcome_inv H. apply IH in H as (extracted & HF & ->).
    exists (a :: extracted). split; [by constructor|].
    simpl. destruct (has_content a); [|done]. by rewrite <- app_assoc.
Qed.

Lemma collect_entries_returns entry_data items :
  (∀ item, ∃ e, entry_data item = Return e) →
  ∀ acc, ∃ r, collect_entries entry_data items acc = Return r.
Proof.
  intros Hf. induction items as [|item rest IH]; intros acc; simpl.
  - eauto.
  - destruct (Hf item) as [e ->]. unfold mbind, outcome_bind. apply IH.
Qed.

Lemma filter_has_content extracted :
  Forall (λ e, Py.truthy (title e) = true ∨ Py.truthy (link e) = true)
    (List.filter has_content extracted).
Proof.
  apply Forall_forall. intros e [_ H]%list_elem_of_In%filter_In.
  by apply orb_true_iff.
Qed.

(** ** Dialect detection *)

Lemma root_namespaces_bound root :
  Py.contains "}" (tag root) = true →
  root_namespaces root !! "atom" = Some (Py.drop 1 (Py.before "}" (tag root))).
Proof. intros H. unfold root_namespaces. rewrite H. apply lookup_insert_eq. Qed.

Lemma root_namespaces_empty root :
  Py.contains "}" (tag root) = false → root_namespaces root = ∅.
Proof. intros H. unfold root_namespaces. by rewrite H. Qed.

(** [is_atom]: the root tag carries a namespace, whichever it is, or
    ends in [feed]. *)
Lemma is_atom_spec root :
  is_atom root = Py.contains "}" (tag root) || Py.endswith (tag root) "feed".
Proof.
  unfold is_atom. destruct (Py.contains "}" (tag root)) eqn:E.
  - rewrite (root_namespaces_bound _ E). by rewrite bool_decide_eq_true_2.
  - rewrite (root_namespaces_empty _ E), lookup_empty.
    rewrite bool_decide_eq_false_2; [done|]. by intros [? ?].
Qed.

(** ** The two branches *)

Lemma atom_entry_data_returns item (namespaces : gmap string string) uri :
  namespaces !! "atom" = Some uri →
  ∃ e, atom_entry_data item namespaces = Return e.
Proof.
  intros H. unfold atom_entry_data, mbind, outcome_bind.
  destruct (find_element_text_returns item _ _ _ (tokenizer_prefixed "title" _ _ H : xpath_tokenizer "atom:title" _ = _))
    as [t ->].
  destruct (find_element_text_returns item _ _ _ (tokenizer_prefixed "summary" _ _ H : xpath_tokenizer "atom:summary" _ = _))
    as [d ->].
  destruct (find_element_text_returns item _ _ _ (tokenizer_prefixed "content" _ _ H : xpath_tokenizer "atom:content" _ = _))
    as [c Hc].
  unfold findall.
  rewrite (iterfind_returns item _ _ _ (tokenizer_prefixed "link" _ _ H : xpath_tokenizer "atom:link" _ = _)).
  destruct (negb (Py.truthy d)); [rewrite Hc|]; eauto.
Qed.

Lemma parse_atom_returns root (namespaces : gmap string string) uri :
  namespaces !! "atom" = Some uri → ∃ p, parse_atom root namespaces = Return p.
Proof.
  intros H. unfold parse_atom, mbind, outcome_bind.
  destruct (find_element_text_returns root _ _ _ (tokenizer_prefixed "title" _ _ H : xpath_tokenizer "atom:title" _ = _))
    as [t ->].
  destruct (find_element_text_returns root _ _ _ (tokenizer_prefixed "subtitle" _ _ H : xpath_tokenizer "atom:subtitle" _ = _))
    as [d ->].
  unfold findall.
  rewrite (iterfind_returns root _ _ _ (tokenizer_prefixed "link" _ _ H : xpath_tokenizer "atom:link" _ = _)).
  rewrite (iterfind_returns root _ _ _ (tokenizer_prefixed "entry" _ _ H : xpath_tokenizer "atom:entry" _ = _)).
  match goal with
  | |- context [collect_entries ?f ?items ?acc] =>
      destruct (collect_entries_returns f items
                  (λ item, atom_entry_data_returns item _ _ H) acc) as [r ->]
  end.
  eauto.
Qed.

(** Without a binding for the prefix [atom] the first lookup of the
    Atom branch raises. *)
Lemma parse_atom_raises root (namespaces : gmap string string) :
  namespaces !! "atom" = None →
  parse_atom root namespaces
  = Raise (SyntaxError "prefix 'atom' not found in prefix map").
Proof.
  intros H. unfold parse_atom, mbind, outcome_bind.
  by rewrite (find_element_text_raises root _ _ _ (tokenizer_unbound "title" _ H : xpath_tokenizer "atom:title" _ = _)).
Qed.

Lemma tokenizer_plain path :
  Py.startswith path "{" = false → Py.contains ":" path = false →
  xpath_tokenizer path ∅ = Return path.
Proof.
  intros H1 H2. unfold xpath_tokenizer. by rewrite H1, H2, lookup_empty.
Qed.

Lemma rss_entry_data_returns item : ∃ e, rss_entry_data item ∅ = Return e.
Proof.
  unfold rss_entry_data, mbind, outcome_bind.
  destruct (find_element_text_returns item "title" ∅ "title" (tokenizer_plain "title" eq_refl eq_refl)) as [t ->].
  destruct (find_element_text_returns item "link" ∅ "link" (tokenizer_plain "link" eq_refl eq_refl)) as [l ->].
  destruct (find_element_text_returns item "description" ∅ "description" (tokenizer_plain "description" eq_refl eq_refl))
    as [d ->].
  eauto.
Qed.

Lemma parse_rss_returns channel : ∃ p, parse_rss channel ∅ = Return p.
Proof.
  unfold parse_rss, mbind, outcome_bind.
  destruct (find_element_text_returns channel "title" ∅ "title" (tokenizer_plain "title" eq_refl eq_refl)) as [t ->].
  destruct (find_element_text_returns channel "description" ∅ "description" (tokenizer_plain "description" eq_refl eq_refl))
    as [d ->].
  destruct (find_element_text_returns channel "link" ∅ "link" (tokenizer_plain "link" eq_refl eq_refl)) as [l ->].
  unfold findall. rewrite (iterfind_returns channel "item" ∅ "item" (tokenizer_plain "item" eq_refl eq_refl)).
  match goal with
  | |- context [collect_entries ?f ?items ?acc] =>
      destruct (collect_entries_returns f items rss_entry_data_returns acc) as [r ->]
  end.
  eauto.
Qed.

(** [root.find('channel')]: the first child whose tag is [channel]. *)
Lemma find_channel root :
  ET.find root "channel" ∅
  = Return (head (List.filter (λ e, String.eqb (tag e) "channel") (children root))).
Proof.
  unfold find, mbind, outcome_bind.
  by rewrite (iterfind_returns root "channel" ∅ "channel" (tokenizer_plain "channel" eq_refl eq_refl)).
Qed.

Lemma find_channel_none root :
  Forall (λ child, tag child ≠ "channel") (children root) →
  ET.find root "channel" ∅ = Return None.
Proof.
  intros H. rewrite find_channel. f_equal.
  induction H as [|child rest Hc _ IH]; simpl; [done|].
  apply String.eqb_neq in Hc. by rewrite Hc.
Qed.

(** ** The parser, one root at a time *)

Section ParserFacts.

Variable fromstring : string → outcome Element.

(** What [parse_feed_custom] does once the text is parsed: it follows
    the two tests on the root. *)
Lemma parse_feed_custom_root content root err :
  content ≠ "" →
  fromstring (Py.strip content) = Return root →
  parse_feed_custom fromstring (Some content) err =
    if is_atom root then
      match parse_atom root (root_namespaces root) with
      | Return p => (Return (Some p), err)
      | Raise e => parse_feed_custom_except e err
      end
    else if is_rss root then
      match ET.find root "channel" ∅ with
      | Return (Some channel) =>
          match parse_rss channel (root_namespaces root) with
          | Return p => (Return (Some p), err)
          | Raise e => parse_feed_custom_except e err
          end
      | Return None => (Return None, (err ++ [missing_channel_message])%list)
      | Raise e => parse_feed_custom_except e err
      end
    else (Return None, (err ++ [unknown_feed_type_message])%list).
Proof.
  intros Hne Hroot. destruct content as [|c content]; [done|].
  unfold parse_feed_custom, try_except, parse_feed_custom_try.
  unfold mbind, M_bind, lift. rewrite Hroot.
  destruct (is_atom root).
  - by destruct (parse_atom root (root_namespaces root)).
  - destruct (is_rss root); [|done].
    destruct (ET.find root "channel" ∅) as [[channel|]|e]; [|done..].
    by destruct (parse_rss channel (root_namespaces root)).
Qed.

(** What it does when the XML parser raises. *)
Lemma parse_feed_custom_raise content e err :
  content ≠ "" →
  fromstring (Py.strip content) = Raise e →
  parse_feed_custom fromstring (Some content) err = parse_feed_custom_except e err.
Proof.
  intros Hne Hroot. destruct content as [|c content]; [done|].
  unfold parse_feed_custom, try_except, parse_feed_custom_try.
  unfold mbind, M_bind, lift. by rewrite Hroot.
Qed.

(** The handlers print one line and return [None]. *)
Lemma parse_feed_custom_except_returns e err :
  ∃ line, parse_feed_custom_except e err = (Return None, (err ++ [line])%list).
Proof. destruct e; simpl; eauto. Qed.

(** A parsed feed comes from one of the two branches. *)
Lemma parse_feed_custom_Some content err p err' :
  parse_feed_custom fromstring content err = (Return (Some p), err') →
  ∃ s root,
    content = Some s ∧ s ≠ "" ∧ fromstring (Py.strip s) = Return root ∧ err' = err
    ∧ (is_atom root = true ∧ parse_atom root (root_namespaces root) = Return p
       ∨ is_atom root = false ∧ is_rss root = true
         ∧ ∃ channel,
             ET.find root "channel" ∅ = Return (Some channel)
             ∧ parse_rss channel (root_namespaces root) = Return p).
Proof.
  intros H. destruct content as [s|]; [|discriminate H].
  destruct (decide (s = "")) as [->|Hne]; [discriminate H|].
  destruct (fromstring (Py.strip s)) as [root|e] eqn:Hroot.
  - rewrite (parse_feed_custom_root _ _ _ Hne Hroot) in H.
    exists s, root. do 3 (split; [done|]).
    destruct (is_atom root).
    + destruct (parse_atom root (root_namespaces root)) as [p'|e].
      * injection H as -> ->. split; [done|]. by left.
      * by destruct (parse_feed_custom_except_returns e err) as [line Hl];
          rewrite Hl in H.
    + destruct (is_rss root); [|discriminate H].
      destruct (ET.find root "channel" ∅) as [[channel|]|e]; [|discriminate H|].
      * destruct (parse_rss channel (root_namespaces root)) as [p'|e] eqn:Hp.
        -- injection H as -> ->. split; [done|]. right. eauto.
        -- by destruct (parse_feed_custom_except_returns e err) as [line Hl];
             rewrite Hl in H.
      * by destruct (parse_feed_custom_except_returns e err) as [line Hl];
          rewrite Hl in H.
  - rewrite (parse_feed_custom_raise _ _ _ Hne Hroot) in H.
    by destruct (parse_feed_custom_except_returns e err) as [line Hl];
      rewrite Hl in H.
Qed.

End ParserFacts.

(** ** The choice of the link *)

(** The loop stops at the first usable candidate. *)
Lemma link_loop_usable link_elems :
  ∀ primary l,
    List.find usable link_elems = Some l →
    link_loop primary link_elems = get l "href"
    ∧ Py.truthy (get l "href") = true.
Proof.
  induction link_elems as [|link rest IH]; intros primary l H; [done|].
  simpl in H. unfold usable, preferred in H. simpl.
  destruct (bool_decide (get link "rel" = Some "alternate")
            || negb (Py.truthy (get link "rel"))); simpl in H.
  - destruct (Py.truthy (get link "href")) eqn:Eh.
    + by injection H as <-.
    + by apply IH.
  - by apply IH.
Qed.

(** Without a usable candidate the loop ends on a value that is
    [None] or empty. *)
Lemma link_loop_unusable link_elems :
  ∀ primary,
    List.find usable link_elems = None →
    Py.truthy primary = false →
    Py.truthy (link_loop primary link_elems) = false.
Proof.
  induction link_elems as [|link rest IH]; intros primary H Hp; [done|].
  simpl in H. unfold usable, preferred in H. simpl.
  destruct (bool_decide (get link "rel" = Some "alternate")
            || negb (Py.truthy (get link "rel"))); simpl in H.
  - destruct (Py.truthy (get link "href")) eqn:Eh; [done|]. by apply IH.
  - by apply IH.
Qed.

Lemma primary_link_first_usable link_elems :
  primary_link link_elems = first_usable_href link_elems.
Proof.
  unfold primary_link, first_usable_href.
  destruct (List.find usable link_elems) as [l|] eqn:Hf.
  - destruct (link_loop_usable _ None _ Hf) as [-> Ht].
    rewrite Ht. by destruct link_elems.
  - rewrite (link_loop_unusable _ None Hf eq_refl).
    destruct link_elems; [done|]. done.
Qed.

(** When every candidate has a [rel] and an [href], both non-empty,
    the usable candidates are those with [rel="alternate"]. *)
Lemma first_usable_spec_choice link_elems :
  every_rel_and_href link_elems →
  first_usable_href link_elems = spec_link_choice link_elems.
Proof.
  unfold every_rel_and_href, first_usable_href, spec_link_choice. intros H.
  assert (List.find usable link_elems
          = List.find (λ l, bool_decide (get l "rel" = Some "alternate")) link_elems)
    as ->.
  { induction H as [|l rest [Hr Hh] _ IH]; [done|]. simpl. rewrite IH.
    replace (usable l) with (bool_decide (get l "rel" = Some "alternate")); [done|].
    unfold usable, preferred. rewrite Hr, Hh. simpl.
    by rewrite orb_false_r, andb_true_r. }
  destruct (List.find _ link_elems); [done|].
  assert (List.find (λ l, bool_decide (get l "rel" = None)) link_elems = None) as ->;
    [|done].
  induction H as [|l rest [Hr Hh] _ IH]; [done|]. simpl.
  rewrite IH. rewrite bool_decide_eq_false_2; [done|].
  intros Hn. by rewrite Hn in Hr.
Qed.

Lemma atom_entry_data_link item namespaces e :
  atom_entry_data item namespaces = Return e →
  ∃ item_link_elems,
    findall item "atom:link" namespaces = Return item_link_elems
    ∧ link e = primary_link item_link_elems.
Proof.
  intros H. unfold atom_entry_data in H. outcome_inv H.
  injection H as <-. eauto.
Qed.

(** ** The examples of the specification *)

Example strip_example :
  Py.strip "  a b  " = "a b" ∧ Py.strip "   " = "" ∧ Py.strip "" = "".
Proof. done. Qed.

Example rss_example :
  parse_feed_custom (fromstring_at rss_document rss_tree) (Some rss_document) []
  = (Return
       (Some (mkParsed (mkFields (Some "Ex") None None)
                [mkFields (Some "A") None (Some "http://x/1")])),
     []).
Proof. by vm_compute. Qed.

Example unknown_example :
  parse_feed_custom (fromstring_at unknown_document unknown_tree)
    (Some unknown_document) []
  = (Return None, [unknown_feed_type_message]).
Proof. by vm_compute. Qed.

Example malformed_example :
  parse_feed_custom (λ _, Raise (ParseError malformed_detail))
    (Some malformed_document) []
  = (Return None, [parse_error_message malformed_detail]).
Proof. done. Qed.

Example untitled_item_example :
  parse_feed_custom (fromstring_at untitled_item_document untitled_item_tree)
    (Some untitled_item_document) []
  = (Return
       (Some (mkParsed (mkFields None None None) [mkFields (Some "A") None None])),
     []).
Proof. by vm_compute. Qed.

(** A prefix bound to [*] makes the path a wildcard: the name is
    looked for in every namespace. *)
Example star_example :
  (found ← findall star_tree "atom:title" (root_namespaces star_tree);
   mret (List.map text found))
  = Return [Some "a"; Some "b"; Some "c"].
Proof. by vm_compute. Qed.

(** * The claims *)

(** ** C1: the link of an Atom feed and of its entries *)

(** C1, as amended.  When the parser takes the Atom branch and returns
    a feed, the feed link and the link of every extracted entry are
    chosen from the [atom:link] children in document order: the [href]
    of the first candidate whose [rel] is ["alternate"], missing or
    empty and whose [href] is non-empty; when there is no such
    candidate, the [href] of the first candidate (or [None] without
    candidates).  When every candidate has a non-empty [rel] and a
    non-empty [href] - an entry with one [rel="alternate"] and one
    [rel="self"] link - this is the [href] of the first
    [rel="alternate"] candidate, as the specification words it. *)
Theorem C1_atom_links_first_usable_href
    fromstring content root err p err' :
  content ≠ "" →
  fromstring (Py.strip content) = Return root →
  is_atom root = true →
  parse_feed_custom fromstring (Some content) err = (Return (Some p), err') →
  let namespaces := root_namespaces root in
  let chosen (link_elems : list Element) (l : option string) :=
    l = first_usable_href link_elems
    ∧ (every_rel_and_href link_elems → l = spec_link_choice link_elems) in
  ∃ feed_link_elems items extracted,
    findall root "atom:link" namespaces = Return feed_link_elems
    ∧ chosen feed_link_elems (link (feed p))
    ∧ findall root "atom:entry" namespaces = Return items
    ∧ Forall2
        (λ item e,
           ∃ item_link_elems,
             findall item "atom:link" namespaces = Return item_link_elems
             ∧ chosen item_link_elems (link e))
        items extracted
    ∧ entries p = List.filter has_content extracted.
Proof.
  intros Hne Hroot Hatom H namespaces chosen.
  rewrite (parse_feed_custom_root _ _ _ _ Hne Hroot), Hatom in H.
  destruct (parse_atom root (root_namespaces root)) as [p'|e] eqn:Hp.
  2: { by destruct (parse_feed_custom_except_returns e err) as [line Hl];
         rewrite Hl in H. }
  injection H as -> ->. unfold parse_atom in Hp. outcome_inv Hp.
  injection Hp as <-. simpl.
  apply collect_entries_filter in E3 as (extracted & HF & ->).
  assert (∀ link_elems, chosen link_elems (primary_link link_elems)) as Hchosen.
  { intros link_elems. split; [apply primary_link_first_usable|].
    intros Hall. rewrite primary_link_first_usable.
    by apply first_usable_spec_choice. }
  exists a1, a2, extracted. split_and!; [done|apply Hchosen|done| |done].
  eapply Forall2_impl; [exact HF|]. intros item e He. simpl in He.
  apply atom_entry_data_link in He as (item_link_elems & Hl & ->). eauto.
Qed.

(** C1, as stated, fails on an entry whose first link has no [rel]
    and whose second link has [rel="alternate"]: the entry link is the
    [href] of the first link, where the specification chooses the
    second. *)
Lemma C1_counterexample :
  let fromstring := fromstring_at atom_feed_document atom_feed_tree in
  ∃ p e,
    parse_feed_custom fromstring (Some atom_feed_document) [] = (Return (Some p), [])
    ∧ entries p = [e]
    ∧ link e = Some "http://x/t"
    ∧ spec_link_choice atom_feed_links = Some "http://x/a"
    ∧ link e ≠ spec_link_choice atom_feed_links.
Proof.
  exists (mkParsed (mkFields None None None)
            [mkFields (Some "B") None (Some "http://x/t")]),
    (mkFields (Some "B") None (Some "http://x/t")).
  split_and!; [by vm_compute|done|done|by vm_compute|].
  by vm_compute.
Qed.

Lemma C1_witness :
  let root := atom_self_tree in
  let p := atom_self_parsed in
  let namespaces := root_namespaces root in
  let chosen (link_elems : list Element) (l : option string) :=
    l = first_usable_href link_elems
    ∧ (every_rel_and_href link_elems → l = spec_link_choice link_elems) in
  ∃ feed_link_elems items extracted,
    findall root "atom:link" namespaces = Return feed_link_elems
    ∧ chosen feed_link_elems (link (feed p))
    ∧ findall root "atom:entry" namespaces = Return items
    ∧ Forall2
        (λ item e,
           ∃ item_link_elems,
             findall item "atom:link" namespaces = Return item_link_elems
             ∧ chosen item_link_elems (link e))
        items extracted
    ∧ entries p = List.filter has_content extracted.
Proof.
  apply (C1_atom_links_first_usable_href
           (fromstring_at atom_self_document atom_self_tree)
           atom_self_document atom_self_tree [] atom_self_parsed []).
  - by vm_compute.
  - by vm_compute.
  - by vm_compute.
  - by vm_compute.
Defined.

(** ** C2: the dialect is read off the root tag *)

(** C2, as amended.  On a parsed document the branch depends on the
    root tag alone.  A root tag with a namespace, whichever its URI,
    takes the Atom branch and a feed is returned.  A root tag without
    namespace that ends in [feed] takes the Atom branch as well and
    the unknown-type error is not reported.  A root tag without
    namespace that ends in [rss] (and not in [feed]) takes the RSS
    branch: the missing-channel error or a feed.  Any other root makes
    the parser print the unknown-type line and return [None]. *)
Theorem C2_branch_from_root_tag fromstring content root err :
  content ≠ "" →
  fromstring (Py.strip content) = Return root →
  let result := parse_feed_custom fromstring (Some content) err in
  let unknown := (Return None, (err ++ [unknown_feed_type_message])%list) in
  if Py.contains "}" (tag root) then
    is_atom root = true ∧ ∃ p, result = (Return (Some p), err)
  else if Py.endswith (tag root) "feed" then
    is_atom root = true ∧ result ≠ unknown
  else if Py.endswith (tag root) "rss" then
    is_atom root = false ∧ is_rss root = true
    ∧ (result = (Return None, (err ++ [missing_channel_message])%list)
       ∨ ∃ p, result = (Return (Some p), err))
  else
    is_atom root = false ∧ is_rss root = false ∧ result = unknown.
Proof.
  intros Hne Hroot result unknown. subst result unknown.
  rewrite (parse_feed_custom_root _ _ _ _ Hne Hroot), is_atom_spec.
  unfold is_rss.
  destruct (Py.contains "}" (tag root)) eqn:Ens; simpl.
  - split; [done|].
    destruct (parse_atom_returns root _ _ (root_namespaces_bound _ Ens)) as [p ->].
    eauto.
  - destruct (Py.endswith (tag root) "feed"); [|destruct (Py.endswith (tag root) "rss")].
    + split; [done|]. rewrite parse_atom_raises.
      * simpl. unfold print_stderr, mbind, M_bind, mret, M_ret.
        intros [= H%app_inv_head]. discriminate H.
      * by rewrite root_namespaces_empty, lookup_empty.
    + split_and!; [done..|]. rewrite (root_namespaces_empty _ Ens).
      rewrite find_channel.
      destruct (head _) as [channel|]; [|by left].
      destruct (parse_rss_returns channel) as [p ->]. eauto.
    + done.
Qed.

(** C2, as stated, fails on a root [foo] in the namespace
    [http://example.org/ns]: its name does not end in [feed] and its
    namespace is not Atom's, yet the Atom branch is taken and a feed is
    returned instead of the unknown-type error. *)
Lemma C2_counterexample :
  let fromstring := fromstring_at foreign_document foreign_tree in
  let root := foreign_tree in
  fromstring (Py.strip foreign_document) = Return root
  ∧ Py.endswith (tag root) "feed" = false
  ∧ Py.drop 1 (Py.before "}" (tag root)) = "http://example.org/ns"
  ∧ "http://example.org/ns" ≠ atom_ns
  ∧ is_atom root = true
  ∧ parse_feed_custom fromstring (Some foreign_document) []
    = (Return (Some (mkParsed (mkFields (Some "T") None None) [])), []).
Proof. split_and!; by vm_compute. Qed.

Lemma C2_witness :
  let fromstring := fromstring_at foreign_document foreign_tree in
  let result := parse_feed_custom fromstring (Some foreign_document) [] in
  is_atom foreign_tree = true ∧ ∃ p, result = (Return (Some p), []).
Proof.
  apply (C2_branch_from_root_tag
           (fromstring_at foreign_document foreign_tree)
           foreign_document foreign_tree []).
  - by vm_compute.
  - by vm_compute.
Defined.

(** ** C3: the Atom example of the specification *)

(** C3 fails on the code.  The document of the claim has the root
    [feed] without namespace: the Atom branch is taken with an empty
    prefix map, the lookup of [atom:title] raises [SyntaxError], and
    the parser prints the unexpected-error line and returns [None]; no
    entry is extracted.  Only the root tag matters. *)
Theorem C3_plain_feed_is_rejected fromstring root err :
  fromstring (Py.strip plain_feed_document) = Return root →
  tag root = "feed" →
  parse_feed_custom fromstring (Some plain_feed_document) err
  = (Return None,
     (err ++ [unexpected_error_message "prefix 'atom' not found in prefix map"])%list).
Proof.
  intros Hroot Htag.
  assert (plain_feed_document ≠ "") as Hne by (by vm_compute).
  assert (Py.contains "}" (tag root) = false) as Hns by (by rewrite Htag).
  rewrite (parse_feed_custom_root _ _ _ _ Hne Hroot), is_atom_spec, Hns, Htag.
  simpl. rewrite parse_atom_raises; [done|].
  by rewrite (root_namespaces_empty _ Hns), lookup_empty.
Qed.

Lemma C3_witness :
  parse_feed_custom (fromstring_at plain_feed_document plain_feed_tree)
    (Some plain_feed_document) []
  = (Return None,
     [unexpected_error_message "prefix 'atom' not found in prefix map"]).
Proof.
  apply (C3_plain_feed_is_rejected
           (fromstring_at plain_feed_document plain_feed_tree)
           plain_feed_tree []).
  - by vm_compute.
  - reflexivity.
Defined.

(** ** C4: missing and blank text *)

Lemma find_element_text_field elem path namespaces r :
  find_element_text elem path namespaces = Return r →
  ∃ element,
    ET.find elem path namespaces = Return element
    ∧ field_of element r
    ∧ Py.truthy r = has_visible_text element.
Proof.
  unfold find_element_text, mbind, outcome_bind. intros H.
  destruct (ET.find elem path namespaces) as [element|]; [|done].
  injection H as <-. exists element. split; [done|].
  destruct element as [el|]; [|done]. unfold field_of, has_visible_text.
  destruct (text el) as [t|]; [|done]. simpl.
  destruct (String.eqb_spec t "") as [->|Hne]; [done|]. simpl.
  destruct (Py.all_space t) eqn:Es.
  - apply PyFacts.strip_empty_iff in Es as ->. done.
  - assert (Py.strip t ≠ "") as Hs.
    { intros Hs%PyFacts.strip_empty_iff. congruence. }
    split_and!; [done..|apply PyFacts.strip_idem|].
    simpl. by apply negb_true_iff, String.eqb_neq.
Qed.

Lemma atom_entry_data_fields item namespaces e :
  atom_entry_data item namespaces = Return e →
  ∃ entry_title summary,
    ET.find item "atom:title" namespaces = Return entry_title
    ∧ field_of entry_title (title e)
    ∧ ET.find item "atom:summary" namespaces = Return summary
    ∧ if has_visible_text summary
      then field_of summary (description e)
      else ∃ content,
             ET.find item "atom:content" namespaces = Return content
             ∧ field_of content (description e).
Proof.
  intros H. unfold atom_entry_data in H.
  unfold mbind, outcome_bind, mret, outcome_ret in H.
  destruct (find_element_text item "atom:title" namespaces) as [t|] eqn:Ht;
    [|done].
  destruct (find_element_text item "atom:summary" namespaces) as [s|] eqn:Hs;
    [|done].
  apply find_element_text_field in Ht as (entry_title & Ht & Ft & _).
  apply find_element_text_field in Hs as (summary & Hs & Fs & Ts).
  exists entry_title, summary. rewrite <- Ts.
  destruct (Py.truthy s); simpl in H.
  - destruct (findall item "atom:link" namespaces); [|done].
    injection H as <-. done.
  - destruct (find_element_text item "atom:content" namespaces) as [c|] eqn:Hc;
      [|done].
    apply find_element_text_field in Hc as (content & Hc & Fc & _).
    destruct (findall item "atom:link" namespaces); [|done].
    injection H as <-. split_and!; [done..|]. eauto.
Qed.

Lemma rss_entry_data_fields item namespaces e :
  rss_entry_data item namespaces = Return e →
  ∃ entry_title entry_link entry_description,
    ET.find item "title" namespaces = Return entry_title
    ∧ field_of entry_title (title e)
    ∧ ET.find item "link" namespaces = Return entry_link
    ∧ field_of entry_link (link e)
    ∧ ET.find item "description" namespaces = Return entry_description
    ∧ field_of entry_description (description e).
Proof.
  intros H. unfold rss_entry_data in H.
  unfold mbind, outcome_bind, mret, outcome_ret in H.
  destruct (find_element_text item "title" namespaces) as [t|] eqn:Ht; [|done].
  destruct (find_element_text item "link" namespaces) as [l|] eqn:Hl; [|done].
  destruct (find_element_text item "description" namespaces) as [d|] eqn:Hd;
    [|done].
  apply find_element_text_field in Ht as (entry_title & Ht & Ft & _).
  apply find_element_text_field in Hl as (entry_link & Hl & Fl & _).
  apply find_element_text_field in Hd as (entry_description & Hd & Fd & _).
  injection H as <-. eauto 10.
Qed.

(** C4, as amended.  Every title, description and link of a returned
    feed that is read from the text of an element is [None] when that
    element is missing or has no text, the empty string when its text
    is white space only, and else the text without the white space
    around it, which is not empty; it is never a placeholder.  The
    element is the first child of the name; for the description of an
    Atom entry it is the summary when the summary has a character
    that is not white space, and the content otherwise. *)
Theorem C4_text_absent_or_stripped fromstring content err p err' :
  parse_feed_custom fromstring content err = (Return (Some p), err') →
  ∃ s root,
    content = Some s
    ∧ fromstring (Py.strip s) = Return root
    ∧ text_fields_of root p.
Proof.
  intros (s & root & -> & Hne & Hroot & -> & Hbranch)%parse_feed_custom_Some.
  exists s, root. split_and!; [done..|]. unfold text_fields_of.
  destruct Hbranch as [[Hatom Hp]|(Hatom & Hrss & channel & Hch & Hp)];
    rewrite Hatom.
  - unfold parse_atom in Hp.
    unfold mbind, outcome_bind, mret, outcome_ret in Hp.
    destruct (find_element_text root "atom:title" _) as [t|] eqn:Ht; [|done].
    destruct (find_element_text root "atom:subtitle" _) as [d|] eqn:Hd; [|done].
    destruct (findall root "atom:link" _) as [links|]; [|done].
    destruct (findall root "atom:entry" _) as [items|] eqn:Hi; [|done].
    destruct (collect_entries _ items []) as [es|] eqn:He; [|done].
    injection Hp as <-. simpl.
    apply find_element_text_field in Ht as (feed_title & Ht & Ft & _).
    apply find_element_text_field in Hd as (feed_subtitle & Hd & Fd & _).
    apply collect_entries_filter in He as (extracted & HF & ->).
    exists feed_title, feed_subtitle, items, extracted.
    split_and!; [done..|].
    eapply Forall2_impl; [exact HF|]. intros item e H.
    by apply atom_entry_data_fields.
  - unfold parse_rss in Hp.
    unfold mbind, outcome_bind, mret, outcome_ret in Hp.
    destruct (find_element_text channel "title" _) as [t|] eqn:Ht; [|done].
    destruct (find_element_text channel "description" _) as [d|] eqn:Hd;
      [|done].
    destruct (find_element_text channel "link" _) as [l|] eqn:Hl; [|done].
    destruct (findall channel "item" _) as [items|] eqn:Hi; [|done].
    destruct (collect_entries _ items []) as [es|] eqn:He; [|done].
    injection Hp as <-. simpl.
    apply find_element_text_field in Ht as (feed_title & Ht & Ft & _).
    apply find_element_text_field in Hd as (feed_description & Hd & Fd & _).
    apply find_element_text_field in Hl as (feed_link & Hl & Fl & _).
    apply collect_entries_filter in He as (extracted & HF & ->).
    exists channel, feed_title, feed_description, feed_link, items, extracted.
    split_and!; [done..|].
    eapply Forall2_impl; [exact HF|]. intros item e H.
    by apply rss_entry_data_fields.
Qed.

(** C4, as stated, fails on a title of three spaces: the field is the
    empty string, not [None]. *)
Lemma C4_counterexample :
  let fromstring := fromstring_at blank_title_document blank_title_tree in
  Py.all_space "   " = true
  ∧ find_element_text blank_title_channel "title" ∅ = Return (Some "")
  ∧ parse_feed_custom fromstring (Some blank_title_document) []
    = (Return (Some (mkParsed (mkFields (Some "") None None) [])), []).
Proof. split_and!; by vm_compute. Qed.

Lemma C4_witness :
  let fromstring := fromstring_at blank_summary_document blank_summary_tree in
  let p := mkParsed (mkFields None None None) [mkFields (Some "B") None None] in
  ∃ s root,
    Some blank_summary_document = Some s
    ∧ fromstring (Py.strip s) = Return root
    ∧ text_fields_of root p.
Proof.
  apply (C4_text_absent_or_stripped
           (fromstring_at blank_summary_document blank_summary_tree)
           (Some blank_summary_document) []
           (mkParsed (mkFields None None None) [mkFields (Some "B") None None])
           []).
  by vm_compute.
Defined.

(** ** C5: entries without title and link are dropped *)

(** C5.  Every entry of a returned feed has a non-empty title or a
    non-empty link: the entries are, in document order, the extracted
    entries that pass this test, whatever their description. *)
Theorem C5_entries_have_title_or_link fromstring content err p err' :
  parse_feed_custom fromstring content err = (Return (Some p), err') →
  Forall (λ e, Py.truthy (title e) = true ∨ Py.truthy (link e) = true) (entries p)
  ∧ ∃ s root extracted,
      content = Some s
      ∧ fromstring (Py.strip s) = Return root
      ∧ extracted_from root extracted
      ∧ entries p = List.filter has_content extracted.
Proof.
  intros (s & root & -> & Hne & Hroot & -> & Hbranch)%parse_feed_custom_Some.
  assert (∃ extracted,
            extracted_from root extracted
            ∧ entries p = List.filter has_content extracted)
    as (extracted & Hex & Hp).
  { unfold extracted_from.
    destruct Hbranch as [[Hatom Hp]|(Hatom & Hrss & channel & Hch & Hp)];
      rewrite Hatom.
    - unfold parse_atom in Hp. outcome_inv Hp. injection Hp as <-. simpl.
      apply collect_entries_filter in E3 as (extracted & HF & ->). eauto.
    - unfold parse_rss in Hp. outcome_inv Hp. injection Hp as <-. simpl.
      apply collect_entries_filter in E3 as (extracted & HF & ->).
      exists extracted. split; [|done]. eauto. }
  split.
  - rewrite Hp. apply filter_has_content.
  - exists s, root, extracted. done.
Qed.

Lemma C5_witness :
  let fromstring := fromstring_at untitled_item_document untitled_item_tree in
  let p := mkParsed (mkFields None None None) [mkFields (Some "A") None None] in
  Forall (λ e, Py.truthy (title e) = true ∨ Py.truthy (link e) = true) (entries p)
  ∧ ∃ s root extracted,
      Some untitled_item_document = Some s
      ∧ fromstring (Py.strip s) = Return root
      ∧ extracted_from root extracted
      ∧ entries p = List.filter has_content extracted.
Proof.
  apply (C5_entries_have_title_or_link
           (fromstring_at untitled_item_document untitled_item_tree)
           (Some untitled_item_document) []
           (mkParsed (mkFields None None None) [mkFields (Some "A") None None]) []).
  by vm_compute.
Defined.

(** ** C6: text that is not well-formed XML *)

Lemma parse_feed_custom_nonempty fromstring s err :
  s ≠ "" →
  parse_feed_custom fromstring (Some s) err
  = try_except (parse_feed_custom_try fromstring s) parse_feed_custom_except err.
Proof. intros H. by destruct s. Qed.

(** C6, as amended.  The text is judged after its surrounding white
    space is removed: two non-empty texts with the same stripped form
    are treated alike.  When the XML parser raises [ParseError] on the
    stripped text of a non-empty input, [parse_feed_custom] prints the
    parse-error line with the parser's message and returns [None];
    when the parser raises another exception, it prints the
    unexpected-error line and returns [None].  The empty text is
    turned away before the parser runs, with [None] and no line.  No
    feed is returned in any of these cases. *)
Theorem C6_parse_error_is_reported fromstring content err :
  content ≠ "" →
  parse_feed_custom fromstring (Some "") err = (Return None, err)
  ∧ (∀ e,
       fromstring (Py.strip content) = Raise e →
       parse_feed_custom fromstring (Some content) err
       = (Return None,
          (err ++ [match e with
                   | ParseError detail => parse_error_message detail
                   | _ => unexpected_error_message (str_of_exn e)
                   end])%list))
  ∧ (∀ other,
       other ≠ "" → Py.strip other = Py.strip content →
       parse_feed_custom fromstring (Some other) err
       = parse_feed_custom fromstring (Some content) err).
Proof.
  intros Hne. split_and!.
  - reflexivity.
  - intros e He. rewrite (parse_feed_custom_raise _ _ _ _ Hne He).
    by destruct e.
  - intros other Ho Hs.
    rewrite (parse_feed_custom_nonempty _ _ _ Hne),
      (parse_feed_custom_nonempty _ _ _ Ho).
    unfold try_except, parse_feed_custom_try. by rewrite Hs.
Qed.

(** C6, as stated, fails twice.  The empty text is not well-formed
    XML, and [None] is returned without the parse-error line.  An XML
    declaration after a space is not well-formed XML either, and the
    document is parsed, stripped, into a feed. *)
Lemma C6_counterexample :
  let padded := " " ++ declared_document in
  (∃ detail, declared_parser "" = Raise (ParseError detail))
  ∧ parse_feed_custom declared_parser (Some "") [] = (Return None, [])
  ∧ (∃ detail, declared_parser padded = Raise (ParseError detail))
  ∧ parse_feed_custom declared_parser (Some padded) []
    = (Return (Some (mkParsed (mkFields (Some "Ex") None None) [])), []).
Proof. split_and!; try (by eexists); by vm_compute. Qed.

Lemma C6_witness :
  let fromstring : string → outcome Element :=
    λ _, Raise (ParseError malformed_detail) in
  parse_feed_custom fromstring (Some "") [] = (Return None, [])
  ∧ (∀ e,
       fromstring (Py.strip malformed_document) = Raise e →
       parse_feed_custom fromstring (Some malformed_document) []
       = (Return None,
          ([] ++ [match e with
                  | ParseError detail => parse_error_message detail
                  | _ => unexpected_error_message (str_of_exn e)
                  end])%list))
  ∧ (∀ other,
       other ≠ "" → Py.strip other = Py.strip malformed_document →
       parse_feed_custom fromstring (Some other) []
       = parse_feed_custom fromstring (Some malformed_document) []).
Proof.
  apply (C6_parse_error_is_reported
           (λ _, Raise (ParseError malformed_detail)) malformed_document []).
  by vm_compute.
Defined.

(** ** C7: RSS without channel *)

(** C7.  When the parsed root takes the RSS branch and none of its
    children has the tag [channel], [parse_feed_custom] prints the
    missing-channel line and returns [None]. *)
Theorem C7_rss_without_channel fromstring content root err :
  content ≠ "" →
  fromstring (Py.strip content) = Return root →
  is_atom root = false →
  is_rss root = true →
  Forall (λ child, tag child ≠ "channel") (children root) →
  parse_feed_custom fromstring (Some content) err
  = (Return None, (err ++ [missing_channel_message])%list).
Proof.
  intros Hne Hroot Hatom Hrss Hch.
  rewrite (parse_feed_custom_root _ _ _ _ Hne Hroot), Hatom, Hrss.
  by rewrite (find_channel_none _ Hch).
Qed.

Lemma C7_witness :
  parse_feed_custom (fromstring_at no_channel_document no_channel_tree)
    (Some no_channel_document) []
  = (Return None,
     ["Error (Custom Parser): Could not find <channel> element in RSS feed."]).
Proof.
  apply (C7_rss_without_channel
           (fromstring_at no_channel_document no_channel_tree)
           no_channel_document no_channel_tree []).
  - by vm_compute.
  - by vm_compute.
  - by vm_compute.
  - by vm_compute.
  - repeat constructor. by vm_compute.
Defined.

(** ** C8: the status of the response *)

(** C8, as amended.  A response with a status from 400 to 599 makes
    [fetch_feed_content] print the fetch-error line, which starts with
    the status code, and return [None].  A response with any other
    status, 2xx or not, yields its body: the UTF-8 decoding of the
    content or, when that fails, the text in the apparent encoding. *)
Theorem C8_status_400_to_599_fails requests_get decode_utf8 url response err :
  requests_get url = Return response →
  let code := Requests.status_code response in
  fetch_feed_content requests_get decode_utf8 url err
  = if (400 <=? code) && (code <? 600) then
      (Return None,
       (err ++ [("Error fetching URL '" ++ url ++ "': " ++ Py.str_of_int code
                 ++ (if (code <? 500)%Z then " Client Error: " else " Server Error: ")
                 ++ Requests.reason response ++ " for url: "
                 ++ Requests.url response)%string])%list)
    else
      (Return (Some match decode_utf8 (Requests.content response) with
                    | Some content => content
                    | None => Requests.text response
                    end),
       err).
Proof.
  intros Hget code. subst code.
  unfold fetch_feed_content, try_except, mbind, M_bind, lift.
  rewrite Hget. unfold Requests.raise_for_status.
  destruct (Z.leb_spec 400 (Requests.status_code response)),
    (Z.ltb_spec (Requests.status_code response) 500),
    (Z.ltb_spec (Requests.status_code response) 600),
    (Z.leb_spec 500 (Requests.status_code response)); simpl; try done; lia.
Qed.

(** C8, as stated, fails on a response [304 Not Modified]: the status
    is not 2xx and the body is returned. *)
Lemma C8_counterexample :
  let requests_get := λ url, Return (not_modified url) in
  let decode_utf8 : list Byte.byte → option string := λ _, Some "" in
  Requests.status_code (not_modified "http://x/feed") = 304
  ∧ fetch_feed_content requests_get decode_utf8 "http://x/feed" []
    = (Return (Some ""), []).
Proof. split; by vm_compute. Qed.

Lemma C8_witness :
  fetch_feed_content (λ url, Return (not_found url)) (λ _, Some "") "http://x/feed" []
  = (Return None,
     ["Error fetching URL 'http://x/feed': 404 Client Error: Not Found for url: http://x/feed"]).
Proof.
  apply (C8_status_400_to_599_fails
           (λ url, Return (not_found url)) (λ _, Some "") "http://x/feed"
           (not_found "http://x/feed") []).
  reflexivity.
Defined.

(** ** C9: the result depends on the text alone *)

(** What the parser returns and prints is fixed by the text, in the
    model without the cache. *)
Lemma parse_feed_custom_fixed fromstring content :
  ∃ result printed,
    ∀ err,
      parse_feed_custom fromstring content err
      = (Return result, (err ++ printed)%list).
Proof.
  destruct content as [s|]; [|exists None, []; intros; by rewrite app_nil_r].
  destruct (decide (s = "")) as [->|Hne];
    [exists None, []; intros; by rewrite app_nil_r|].
  assert (∀ e, ∃ line, ∀ err,
            parse_feed_custom_except e err = (Return None, (err ++ [line])%list))
    as Hexcept.
  { intros e. destruct e; simpl; eauto. }
  destruct (fromstring (Py.strip s)) as [root|e] eqn:Hroot.
  - pose proof (λ err, parse_feed_custom_root fromstring s root err Hne Hroot) as H.
    destruct (is_atom root).
    + destruct (parse_atom root (root_namespaces root)) as [p|e].
      * exists (Some p), []. intros. by rewrite H, app_nil_r.
      * destruct (Hexcept e) as [line Hl]. exists None, [line]. intros.
        by rewrite H, Hl.
    + destruct (is_rss root).
      * destruct (ET.find root "channel" ∅) as [[channel|]|e].
        -- destruct (parse_rss channel (root_namespaces root)) as [p|e].
           ++ exists (Some p), []. intros. by rewrite H, app_nil_r.
           ++ destruct (Hexcept e) as [line Hl]. exists None, [line]. intros.
              by rewrite H, Hl.
        -- exists None, [missing_channel_message]. intros. by rewrite H.
        -- destruct (Hexcept e) as [line Hl]. exists None, [line]. intros.
           by rewrite H, Hl.
      * exists None, [unknown_feed_type_message]. intros. by rewrite H.
  - destruct (Hexcept e) as [line Hl]. exists None, [line]. intros.
    by rewrite (parse_feed_custom_raise _ _ _ _ Hne Hroot), Hl.
Qed.

(** The cache of the library changes nothing of what a call returns,
    raises or prints, as long as it holds compiled selectors only. *)
Module CacheFacts.

Lemma coherent_empty : Cached.coherent ∅.
Proof.
  intros path namespaces q H. unfold Cached.cache in H.
  by rewrite lookup_empty in H.
Qed.

Lemma coherent_insert c path namespaces q :
  Cached.coherent c →
  xpath_tokenizer path namespaces = Return q →
  Cached.coherent (<[(path, namespaces) := q]> c).
Proof.
  intros Hc Hq p n t H. unfold Cached.cache in *.
  destruct (decide ((path, namespaces) = (p, n))) as [[= <- <-]|Hne].
  - rewrite lookup_insert_eq in H. by injection H as <-.
  - rewrite lookup_insert_ne in H by done. eauto.
Qed.

Lemma refines_ret {A} (a : A) : Cached.refines (mret a) (Return a).
Proof. intros [l c] Hc. by exists c. Qed.

Lemma refines_bind {A B} (m : Cached.S A) (k : A → Cached.S B) o k' :
  Cached.refines m o →
  (∀ a, Cached.refines (k a) (k' a)) →
  Cached.refines (m ≫= k) (o ≫= k').
Proof.
  intros Hm Hk env Hc. destruct (Hm env Hc) as (c & Em & Hc').
  unfold mbind at 1. unfold Cached.S_bind. rewrite Em.
  destruct o as [a|e]; simpl.
  - apply (Hk a (Cached.mkEnv (Cached.lines env) c) Hc').
  - by exists c.
Qed.

Lemma iterfind_refines elem path namespaces :
  Cached.refines (Cached.iterfind elem path namespaces)
    (ET.iterfind elem path namespaces).
Proof.
  intros [l c] Hc. unfold Cached.iterfind. simpl in *.
  destruct (c !! (path, namespaces)) as [q|] eqn:Hq.
  - rewrite (iterfind_returns _ _ _ _ (Hc _ _ _ Hq)). by exists c.
  - set (c' := if (100 <? size c)%nat then ∅ else c).
    assert (Cached.coherent c') as Hc'.
    { subst c'. destruct (100 <? size c)%nat; [apply coherent_empty|done]. }
    destruct (xpath_tokenizer path namespaces) as [q|e] eqn:Ht.
    + rewrite (iterfind_returns _ _ _ _ Ht). eexists. split; [done|].
      by apply coherent_insert.
    + rewrite (iterfind_raises _ _ _ _ Ht). by exists c'.
Qed.

Lemma find_refines elem path namespaces :
  Cached.refines (Cached.find elem path namespaces)
    (ET.find elem path namespaces).
Proof.
  apply refines_bind; [apply iterfind_refines|]. intros. apply refines_ret.
Qed.

Lemma find_element_text_refines elem path namespaces :
  Cached.refines (Cached.find_element_text elem path namespaces)
    (find_element_text elem path namespaces).
Proof.
  apply refines_bind; [apply find_refines|]. intros. apply refines_ret.
Qed.

Lemma atom_entry_data_refines item namespaces :
  Cached.refines (Cached.atom_entry_data item namespaces)
    (atom_entry_data item namespaces).
Proof.
  apply refines_bind; [apply find_element_text_refines|]. intros t.
  apply refines_bind; [apply find_element_text_refines|]. intros s.
  apply refines_bind.
  { destruct (negb (Py.truthy s));
      [apply find_element_text_refines|apply refines_ret]. }
  intros d. apply refines_bind; [apply iterfind_refines|]. intros.
  apply refines_ret.
Qed.

Lemma rss_entry_data_refines item namespaces :
  Cached.refines (Cached.rss_entry_data item namespaces)
    (rss_entry_data item namespaces).
Proof.
  apply refines_bind; [apply find_element_text_refines|]. intros t.
  apply refines_bind; [apply find_element_text_refines|]. intros l.
  apply refines_bind; [apply find_element_text_refines|]. intros d.
  apply refines_ret.
Qed.

Lemma collect_entries_refines entry_data entry_data' items :
  (∀ item, Cached.refines (entry_data item) (entry_data' item)) →
  ∀ acc,
    Cached.refines (Cached.collect_entries entry_data items acc)
      (collect_entries entry_data' items acc).
Proof.
  intros He. induction items as [|item rest IH]; intros acc.
  - apply refines_ret.
  - cbn [Cached.collect_entries collect_entries].
    apply refines_bind; [apply He|]. intros e. apply IH.
Qed.

Lemma parse_atom_refines root namespaces :
  Cached.refines (Cached.parse_atom root namespaces)
    (parse_atom root namespaces).
Proof.
  apply refines_bind; [apply find_element_text_refines|]. intros t.
  apply refines_bind; [apply find_element_text_refines|]. intros d.
  apply refines_bind; [apply iterfind_refines|]. intros links.
  apply refines_bind; [apply iterfind_refines|]. intros items.
  apply refines_bind.
  { apply collect_entries_refines. intros. apply atom_entry_data_refines. }
  intros. apply refines_ret.
Qed.

Lemma parse_rss_refines channel namespaces :
  Cached.refines (Cached.parse_rss channel namespaces)
    (parse_rss channel namespaces).
Proof.
  apply refines_bind; [apply find_element_text_refines|]. intros t.
  apply refines_bind; [apply find_element_text_refines|]. intros d.
  apply refines_bind; [apply find_element_text_refines|]. intros l.
  apply refines_bind; [apply iterfind_refines|]. intros items.
  apply refines_bind.
  { apply collect_entries_refines. intros. apply rss_entry_data_refines. }
  intros. apply refines_ret.
Qed.

Lemma refines_M_ret {A} (a : A) : Cached.refines_M (mret a) (mret a).
Proof. intros [l c] Hc. by exists c. Qed.

Lemma refines_M_lift {A} (m : Cached.S A) o :
  Cached.refines m o → Cached.refines_M m (lift o).
Proof. intros Hm env Hc. exact (Hm env Hc). Qed.

Lemma refines_M_returned {A B} (m : Cached.S B) (a : A) (k : A → M B) :
  Cached.refines_M m (k a) → Cached.refines_M m (lift (Return a) ≫= k).
Proof. intros Hm env Hc. exact (Hm env Hc). Qed.

Lemma refines_M_print line :
  Cached.refines_M (Cached.print_stderr line) (print_stderr line).
Proof. intros [l c] Hc. by exists c. Qed.

Lemma refines_M_bind {A B} (m : Cached.S A) (k : A → Cached.S B) m' k' :
  Cached.refines_M m m' →
  (∀ a, Cached.refines_M (k a) (k' a)) →
  Cached.refines_M (m ≫= k) (m' ≫= k').
Proof.
  intros Hm Hk env Hc. destruct (Hm env Hc) as (c & Em & Hc').
  unfold mbind at 1. unfold Cached.S_bind. rewrite Em.
  unfold mbind, M_bind.
  destruct (m' (Cached.lines env)) as [[a|e] err]; simpl.
  - apply (Hk a (Cached.mkEnv err c) Hc').
  - by exists c.
Qed.

Lemma refines_M_try {A} (m : Cached.S A) h m' h' :
  Cached.refines_M m m' →
  (∀ e, Cached.refines_M (h e) (h' e)) →
  Cached.refines_M (Cached.try_except m h) (try_except m' h').
Proof.
  intros Hm Hh env Hc. destruct (Hm env Hc) as (c & Em & Hc').
  unfold Cached.try_except, try_except. rewrite Em.
  destruct (m' (Cached.lines env)) as [[a|e] err]; simpl.
  - by exists c.
  - apply (Hh e (Cached.mkEnv err c) Hc').
Qed.

Lemma parse_feed_custom_try_refines fromstring s :
  Cached.refines_M (Cached.parse_feed_custom_try fromstring s)
    (parse_feed_custom_try fromstring s).
Proof.
  apply refines_M_bind; [apply refines_M_lift; by intros [l c] Hc; exists c|].
  intros root. cbv zeta. destruct (is_atom root).
  - apply refines_M_bind; [apply refines_M_lift, parse_atom_refines|].
    intros. apply refines_M_ret.
  - destruct (is_rss root).
    + rewrite find_channel. apply refines_M_returned.
      unfold Cached.find_plain_name. destruct (head _) as [channel|].
      * apply refines_M_bind; [apply refines_M_lift, parse_rss_refines|].
        intros. apply refines_M_ret.
      * apply refines_M_bind; [apply refines_M_print|].
        intros. apply refines_M_ret.
    + apply refines_M_bind; [apply refines_M_print|].
      intros. apply refines_M_ret.
Qed.

Lemma parse_feed_custom_except_refines e :
  Cached.refines_M (Cached.parse_feed_custom_except e)
    (parse_feed_custom_except e).
Proof.
  destruct e; (apply refines_M_bind; [apply refines_M_print|]);
    intros; apply refines_M_ret.
Qed.

Lemma parse_feed_custom_refines fromstring content :
  Cached.refines_M (Cached.parse_feed_custom fromstring content)
    (parse_feed_custom fromstring content).
Proof.
  destruct content as [[|a s]|]; [apply refines_M_ret| |apply refines_M_ret].
  apply refines_M_try; [apply parse_feed_custom_try_refines|].
  apply parse_feed_custom_except_refines.
Qed.

End CacheFacts.

(** C9.  What [parse_feed_custom] returns and the lines it prints are
    fixed by the text.  The only state a call reads that an earlier
    call may have written is the selector cache of the library, and
    [sys.stderr] is only appended to: whatever lines were printed
    before and whatever coherent cache the call finds, it returns the
    same value, never raises, and prints the same lines.  So does a
    second call on the same text made after the first, on the cache
    the first has left, which is coherent again.  The value and the
    lines are those of the parser without the cache. *)
Theorem C9_parse_feed_custom_deterministic fromstring content env env' :
  Cached.coherent (Cached.selectors env) →
  Cached.coherent (Cached.selectors env') →
  let first := Cached.parse_feed_custom fromstring content env in
  let second := Cached.parse_feed_custom fromstring content first.2 in
  let other := Cached.parse_feed_custom fromstring content env' in
  ∃ result printed,
    first.1 = Return result
    ∧ second.1 = Return result
    ∧ other.1 = Return result
    ∧ Cached.lines first.2 = (Cached.lines env ++ printed)%list
    ∧ Cached.lines second.2 = (Cached.lines first.2 ++ printed)%list
    ∧ Cached.lines other.2 = (Cached.lines env' ++ printed)%list
    ∧ Cached.coherent (Cached.selectors first.2)
    ∧ ∀ err,
        parse_feed_custom fromstring content err
        = (Return result, (err ++ printed)%list).
Proof.
  intros Hc Hc' first second other.
  destruct (parse_feed_custom_fixed fromstring content)
    as (result & printed & H).
  exists result, printed.
  destruct (CacheFacts.parse_feed_custom_refines fromstring content env Hc)
    as (c1 & E1 & Hc1).
  destruct (CacheFacts.parse_feed_custom_refines fromstring content env' Hc')
    as (c' & E' & _).
  rewrite H in E1, E'. simpl in E1, E'.
  destruct (CacheFacts.parse_feed_custom_refines fromstring content
              (Cached.mkEnv (Cached.lines env ++ printed) c1) Hc1)
    as (c2 & E2 & _).
  rewrite H in E2. simpl in E2.
  subst first second other. rewrite E1. simpl. rewrite E2, E'. simpl.
  split_and!; done.
Qed.

Lemma C9_witness :
  let fromstring := fromstring_at rss_document rss_tree in
  let env := Cached.mkEnv [] ∅ in
  let env' := Cached.mkEnv ["An earlier line."] warm_cache in
  let first := Cached.parse_feed_custom fromstring (Some rss_document) env in
  let second :=
    Cached.parse_feed_custom fromstring (Some rss_document) first.2 in
  let other := Cached.parse_feed_custom fromstring (Some rss_document) env' in
  ∃ result printed,
    first.1 = Return result
    ∧ second.1 = Return result
    ∧ other.1 = Return result
    ∧ Cached.lines first.2 = (Cached.lines env ++ printed)%list
    ∧ Cached.lines second.2 = (Cached.lines first.2 ++ printed)%list
    ∧ Cached.lines other.2 = (Cached.lines env' ++ printed)%list
    ∧ Cached.coherent (Cached.selectors first.2)
    ∧ ∀ err,
        parse_feed_custom fromstring (Some rss_document) err
        = (Return result, (err ++ printed)%list).
Proof.
  apply (C9_parse_feed_custom_deterministic
           (fromstring_at rss_document rss_tree) (Some rss_document)
           (Cached.mkEnv [] ∅)
           (Cached.mkEnv ["An earlier line."] warm_cache)).
  - apply CacheFacts.coherent_empty.
  - apply CacheFacts.coherent_insert; [apply CacheFacts.coherent_empty|].
    by apply tokenizer_plain.
Defined.

(** ** C10: no exception leaves the parser *)

(** C10.  [parse_feed_custom] returns on every input and never raises.
    It returns [None], printing nothing, on [None] and on the empty
    text; and whenever the [try] block raises, whatever the exception
    (of the XML parser or of the extraction), it returns [None] after
    one printed line. *)
Theorem C10_parse_feed_custom_never_raises fromstring content err :
  ∃ result err',
    parse_feed_custom fromstring content err = (Return result, err')
    ∧ (Py.truthy content = false → result = None ∧ err' = err)
    ∧ (∀ s e err1,
         content = Some s → s ≠ "" →
         parse_feed_custom_try fromstring s err = (Raise e, err1) →
         result = None ∧ ∃ line, err' = (err1 ++ [line])%list).
Proof.
  destruct content as [s|]; [|exists None, err; split_and!; [done..|by intros]].
  destruct (decide (s = "")) as [->|Hne].
  { exists None, err. split_and!; [done..|]. by intros s e err1 [= <-]. }
  assert (Py.truthy (Some s) = true) as Ht by (by apply PyFacts.truthy_Some).
  assert (parse_feed_custom fromstring (Some s) err
          = try_except (parse_feed_custom_try fromstring s)
              (parse_feed_custom_except) err) as ->.
  { by destruct s. }
  unfold try_except.
  destruct (parse_feed_custom_try fromstring s err) as [[r|e] err1] eqn:Htry.
  - exists r, err1. split_and!; [done|by rewrite Ht|].
    intros s' e' err1' [= <-] _ H'. rewrite Htry in H'. discriminate H'.
  - destruct (parse_feed_custom_except_returns e err1) as [line Hl].
    exists None, (err1 ++ [line])%list. split_and!; [done|by rewrite Ht|].
    intros s' e' err1' [= <-] _ H'. rewrite Htry in H'.
    injection H' as <- <-. eauto.
Qed.

(** * Further properties *)

(** ** Qualified names *)

Module NameFacts.
Import Py.

Lemma contains_app c a b : contains c (a ++ String c b) = true.
Proof.
  induction a as [|x a IH]; simpl.
  - by rewrite Ascii.eqb_refl.
  - rewrite IH. apply orb_true_r.
Qed.

Lemma before_app c a b : contains c a = false → before c (a ++ String c b) = a.
Proof.
  induction a as [|x a IH]; simpl.
  - by rewrite Ascii.eqb_refl.
  - intros [Hx Ha]%orb_false_iff. rewrite Hx. by rewrite IH.
Qed.

Lemma append_assoc (a b c : string) : (a ++ b) ++ c = a ++ b ++ c.
Proof.
  induction a as [|x a IH]; [done|].
  change (String x (a ++ b) ++ c = String x (a ++ b ++ c)).
  change (String x ((a ++ b) ++ c) = String x (a ++ b ++ c)). by rewrite IH.
Qed.

Lemma endswith_cons x s suffix :
  endswith (String x s) suffix
  = String.eqb (String x s) suffix || endswith s suffix.
Proof. done. Qed.

Lemma endswith_brace_star s : endswith s "}*" = true → endswith s "*" = true.
Proof.
  induction s as [|x s IH]; [done|].
  rewrite !endswith_cons. intros [H|H]%orb_true_iff.
  - apply String.eqb_eq in H. by injection H as -> ->.
  - rewrite (IH H). apply orb_true_r.
Qed.

Lemma endswith_app_star p l :
  l ≠ "" → endswith l "*" = false → endswith (p ++ l) "}*" = false.
Proof.
  intros Hl Hs. induction p as [|x p IH].
  - simpl. destruct (endswith l "}*") eqn:E; [|done].
    apply endswith_brace_star in E. congruence.
  - change (String x p ++ l) with (String x (p ++ l)).
    rewrite endswith_cons, IH, orb_false_r.
    apply String.eqb_neq. intros [= -> H].
    destruct p as [|y p].
    + change ("" ++ l) with l in H. subst l. done.
    + change (String y p ++ l) with (String y (p ++ l)) in H.
      injection H as -> H. destruct p; [by destruct l|done].
Qed.

(** The name [{uri}local] is no wildcard and has a namespace, for a
    [uri] that is neither empty nor [*] and has no closing brace. *)
Lemma qualified_is_exact uri local el_tag :
  uri ≠ "" → uri ≠ "*" → contains "}" uri = false →
  local ≠ "" → endswith local "*" = false →
  prepare_child ("{" ++ uri ++ "}" ++ local) el_tag
  = String.eqb el_tag ("{" ++ uri ++ "}" ++ local).
Proof.
  intros Hne Hstar Hbrace Hl Hs. unfold prepare_child, _is_wildcard_tag.
  assert (endswith ("{" ++ uri ++ "}" ++ local) "}*" = false) as ->.
  { replace ("{" ++ uri ++ "}" ++ local) with (("{" ++ uri ++ "}") ++ local).
    - by apply endswith_app_star.
    - change ("{" ++ uri ++ "}") with (String "{" (uri ++ "}")).
      change (String "{" (uri ++ "}") ++ local)
        with (String "{" ((uri ++ "}") ++ local)).
      by rewrite append_assoc. }
  destruct uri as [|c uri]; [done|]. simpl in Hbrace.
  apply orb_false_iff in Hbrace as [Hc Hbrace].
  assert (String.eqb (take 3 ("{" ++ String c uri ++ "}" ++ local)) "{*}" = false)
    as ->.
  { apply String.eqb_neq. simpl. intros [= -> H].
    destruct uri as [|d uri]; [done|]. simpl in H, Hbrace.
    injection H as ->. by rewrite Ascii.eqb_refl in Hbrace. }
  assert (String.eqb (take 2 ("{" ++ String c uri ++ "}" ++ local)) "{}" = false)
    as ->.
  { apply String.eqb_neq. simpl. intros [= ->]. by rewrite Ascii.eqb_refl in Hc. }
  done.
Qed.

Lemma atom_names_plain local :
  local ∈ atom_names → local ≠ "" ∧ endswith local "*" = false.
Proof.
  unfold atom_names. intros H.
  repeat (apply elem_of_cons in H as [->|H]; [done|]).
  by apply elem_of_nil in H.
Qed.

End NameFacts.

(** A plain name is looked for as it is written. *)
Lemma find_plain elem name :
  Py.startswith name "{" = false → Py.contains ":" name = false →
  _is_wildcard_tag name = false →
  ET.find elem name ∅ = Return (first_child elem name).
Proof.
  intros H1 H2 H3. unfold find, mbind, outcome_bind.
  rewrite (iterfind_returns elem name ∅ name (tokenizer_plain name H1 H2)).
  unfold first_child, prepare_child. rewrite H3.
  replace (String.eqb (Py.take 2 name) "{}") with false; [done|].
  symmetry. apply String.eqb_neq. intros H.
  destruct name as [|c [|d name]]; try done.
  injection H as -> _. done.
Qed.

Lemma find_element_text_plain elem name :
  Py.startswith name "{" = false → Py.contains ":" name = false →
  _is_wildcard_tag name = false →
  find_element_text elem name ∅
  = Return match first_child elem name with
           | Some el => if Py.truthy (text el) then Py.strip <$> text el else None
           | None => None
           end.
Proof.
  intros H1 H2 H3. unfold find_element_text, mbind, outcome_bind.
  by rewrite (find_plain elem name H1 H2 H3).
Qed.

(** A field read by [find_element_text] is non-empty exactly when the
    element has text with a character that is not white space. *)
Lemma truthy_stripped_text element :
  Py.truthy match element with
            | Some el => if Py.truthy (text el) then Py.strip <$> text el else None
            | None => None
            end
  = has_visible_text element.
Proof.
  destruct element as [el|]; [|done]. simpl.
  destruct (text el) as [t|]; [|done]. simpl.
  destruct (String.eqb_spec t "") as [->|Hne]; simpl; [done|].
  destruct (Py.all_space t) eqn:Es.
  - apply PyFacts.strip_empty_iff in Es as ->. done.
  - simpl. apply negb_true_iff, String.eqb_neq.
    intros Hs%PyFacts.strip_empty_iff. congruence.
Qed.

Lemma filter_tag_none (l : list Element) name :
  Forall (λ child, tag child ≠ name) l →
  List.filter (λ e, String.eqb (tag e) name) l = [].
Proof.
  induction 1 as [|child rest Hc _ IH]; simpl; [done|].
  apply String.eqb_neq in Hc. by rewrite Hc.
Qed.

Lemma root_namespaces_of_tag root uri name :
  tag root = "{" ++ uri ++ "}" ++ name → Py.contains "}" uri = false →
  Py.contains "}" (tag root) = true ∧ root_namespaces root !! "atom" = Some uri.
Proof.
  intros Htag Hbrace.
  assert (Py.contains "}" (tag root) = true) as Hc.
  { rewrite Htag. change ("{" ++ uri ++ "}" ++ name) with (String "{" (uri ++ String "}" name)).
    simpl. apply NameFacts.contains_app. }
  split; [done|]. rewrite (root_namespaces_bound _ Hc), Htag.
  change ("{" ++ uri ++ "}" ++ name) with (String "{" (uri ++ String "}" name)).
  assert (Py.before "}" (String "{" (uri ++ String "}" name)) = String "{" uri) as ->.
  { change (String "{" (uri ++ String "}" name))
      with (String "{" uri ++ String "}" name).
    apply NameFacts.before_app. simpl. exact Hbrace. }
  done.
Qed.

Lemma atom_iterfind_exact root uri name elem local :
  tag root = "{" ++ uri ++ "}" ++ name →
  uri ≠ "" → uri ≠ "*" → Py.contains "}" uri = false →
  local ∈ atom_names →
  iterfind elem ("atom:" ++ local) (root_namespaces root)
  = Return (List.filter
              (λ e, String.eqb (tag e) ("{" ++ uri ++ "}" ++ local))
              (children elem)).
Proof.
  intros Htag Hne Hstar Hbrace Hlocal.
  destruct (root_namespaces_of_tag root uri name Htag Hbrace) as [_ Hns].
  rewrite (iterfind_returns elem _ _ _ (tokenizer_prefixed local _ _ Hns)).
  f_equal. apply filter_ext. intros e.
  destruct (NameFacts.atom_names_plain local Hlocal) as [Hl Hs].
  by apply NameFacts.qualified_is_exact.
Qed.

(** ** X1: Atom lookups stay in the namespace of the root *)

(** X1.  The namespace of the root tag is recovered from it, and every
    lookup of the Atom branch selects exactly the children whose tag
    is the looked-for name in that namespace: children in another
    namespace or in none are not seen. *)
Theorem X1_atom_lookup_in_root_namespace root uri name elem local :
  tag root = "{" ++ uri ++ "}" ++ name →
  uri ≠ "" → uri ≠ "*" → Py.contains "}" uri = false →
  local ∈ atom_names →
  root_namespaces root !! "atom" = Some uri
  ∧ findall elem ("atom:" ++ local) (root_namespaces root)
    = Return (List.filter
                (λ e, String.eqb (tag e) ("{" ++ uri ++ "}" ++ local))
                (children elem)).
Proof.
  intros Htag Hne Hstar Hbrace Hlocal. split.
  - by destruct (root_namespaces_of_tag root uri name Htag Hbrace).
  - by eapply atom_iterfind_exact.
Qed.

Lemma X1_witness :
  root_namespaces atom_self_tree !! "atom" = Some atom_ns
  ∧ findall atom_self_tree ("atom:" ++ "entry") (root_namespaces atom_self_tree)
    = Return (List.filter
                (λ e, String.eqb (tag e) ("{" ++ atom_ns ++ "}" ++ "entry"))
                (children atom_self_tree)).
Proof.
  apply (X1_atom_lookup_in_root_namespace atom_self_tree atom_ns "feed"
           atom_self_tree "entry").
  - reflexivity.
  - done.
  - done.
  - reflexivity.
  - unfold atom_names. constructor.
Defined.

(** ** X2: a namespaced root without Atom children *)

(** X2.  A document whose root carries a namespace but has no child
    named [title], [subtitle], [link] or [entry] in that namespace - a
    namespaced RSS document, for one - is returned as a feed without
    title, description, link and entries, and nothing is printed. *)
Theorem X2_namespaced_root_gives_empty_feed
    fromstring content root uri name err :
  content ≠ "" →
  fromstring (Py.strip content) = Return root →
  tag root = "{" ++ uri ++ "}" ++ name →
  uri ≠ "" → uri ≠ "*" → Py.contains "}" uri = false →
  Forall (λ child,
            ∀ local, local ∈ ["title"; "subtitle"; "link"; "entry"] →
                     tag child ≠ "{" ++ uri ++ "}" ++ local)
    (children root) →
  parse_feed_custom fromstring (Some content) err
  = (Return (Some (mkParsed (mkFields None None None) [])), err).
Proof.
  intros Hne Hroot Htag Hu Hstar Hbrace Hch.
  destruct (root_namespaces_of_tag root uri name Htag Hbrace) as [Hc Hns].
  rewrite (parse_feed_custom_root _ _ _ _ Hne Hroot), is_atom_spec, Hc. simpl.
  assert (∀ local, local ∈ ["title"; "subtitle"; "link"; "entry"] →
            iterfind root ("atom:" ++ local) (root_namespaces root) = Return [])
    as Hfind.
  { intros local Hl.
    rewrite (atom_iterfind_exact root uri name root local Htag Hu Hstar Hbrace).
    - f_equal. apply filter_tag_none. eapply Forall_impl; [exact Hch|].
      intros child H. by apply H.
    - unfold atom_names.
      repeat (apply elem_of_cons in Hl as [->|Hl]; [repeat constructor|]).
      by apply elem_of_nil in Hl. }
  unfold parse_atom, find_element_text, find, findall, mbind, outcome_bind.
  rewrite (Hfind "title" ltac:(repeat constructor)
           : iterfind root "atom:title" _ = _).
  rewrite (Hfind "subtitle" ltac:(repeat constructor)
           : iterfind root "atom:subtitle" _ = _).
  rewrite (Hfind "link" ltac:(repeat constructor)
           : iterfind root "atom:link" _ = _).
  rewrite (Hfind "entry" ltac:(repeat constructor)
           : iterfind root "atom:entry" _ = _).
  done.
Qed.

Lemma X2_witness :
  parse_feed_custom (fromstring_at namespaced_rss_document namespaced_rss_tree)
    (Some namespaced_rss_document) []
  = (Return (Some (mkParsed (mkFields None None None) [])), []).
Proof.
  apply (X2_namespaced_root_gives_empty_feed
           (fromstring_at namespaced_rss_document namespaced_rss_tree)
           namespaced_rss_document namespaced_rss_tree
           "http://example.org/rss" "rss" []).
  - by vm_compute.
  - by vm_compute.
  - reflexivity.
  - done.
  - done.
  - reflexivity.
  - repeat constructor. intros local Hl.
    repeat (apply elem_of_cons in Hl as [->|Hl]; [by vm_compute|]).
    by apply elem_of_nil in Hl.
Defined.

(** ** X3: a line is printed exactly on failure *)

Lemma parse_feed_custom_except_line e err :
  ∃ line,
    is_parser_line line
    ∧ parse_feed_custom_except e err = (Return None, (err ++ [line])%list).
Proof.
  unfold is_parser_line.
  destruct e; simpl; eexists; (split; [|reflexivity]); eauto 6.
Qed.

(** X3.  [parse_feed_custom] prints nothing when it returns a feed and
    nothing on [None] or the empty text; on every other input for
    which it returns [None] it prints exactly one line, of one of its
    four kinds. *)
Theorem X3_one_line_exactly_on_failure fromstring content err r err' :
  parse_feed_custom fromstring content err = (Return r, err') →
  match r with
  | Some _ => err' = err
  | None =>
      if Py.truthy content
      then ∃ line, is_parser_line line ∧ err' = (err ++ [line])%list
      else err' = err
  end.
Proof.
  intros H. destruct content as [s|]; [|by injection H as <- <-].
  destruct (decide (s = "")) as [->|Hne]; [by injection H as <- <-|].
  assert (Py.truthy (Some s) = true) as Ht by (by apply PyFacts.truthy_Some).
  assert (∀ e, parse_feed_custom_except e err = (Return r, err') →
               r = None ∧ ∃ line, is_parser_line line ∧ err' = (err ++ [line])%list)
    as Hexcept.
  { intros e He. destruct (parse_feed_custom_except_line e err) as (line & Hl & Hr).
    rewrite Hr in He. injection He as <- <-. eauto. }
  assert (r = None →
          (∃ line, is_parser_line line ∧ err' = (err ++ [line])%list) →
          match r with
          | Some _ => err' = err
          | None =>
              if Py.truthy (Some s)
              then ∃ line, is_parser_line line ∧ err' = (err ++ [line])%list
              else err' = err
          end) as Hnone.
  { intros -> Hl. by rewrite Ht. }
  destruct (fromstring (Py.strip s)) as [root|e] eqn:Hroot.
  - rewrite (parse_feed_custom_root _ _ _ _ Hne Hroot) in H.
    destruct (is_atom root).
    + destruct (parse_atom root (root_namespaces root)) as [p|e].
      * by injection H as <- <-.
      * destruct (Hexcept e H) as [Hr Hl]. by apply Hnone.
    + destruct (is_rss root).
      * destruct (ET.find root "channel" ∅) as [[channel|]|e].
        -- destruct (parse_rss channel (root_namespaces root)) as [p|e].
           ++ by injection H as <- <-.
           ++ destruct (Hexcept e H) as [Hr Hl]. by apply Hnone.
        -- injection H as <- <-. rewrite Ht. eexists. split; [|done]. by left.
        -- destruct (Hexcept e H) as [Hr Hl]. by apply Hnone.
      * injection H as <- <-. rewrite Ht. eexists. split; [|done]. right. by left.
  - rewrite (parse_feed_custom_raise _ _ _ _ Hne Hroot) in H.
    destruct (Hexcept e H) as [Hr Hl]. by apply Hnone.
Qed.

Lemma X3_witness :
  ∃ line,
    is_parser_line line
    ∧ [unknown_feed_type_message] = ([] ++ [line])%list.
Proof.
  apply (X3_one_line_exactly_on_failure
           (fromstring_at unknown_document unknown_tree)
           (Some unknown_document) [] None [unknown_feed_type_message]).
  by vm_compute.
Defined.

(** ** X4: white space around the text *)

(** X4.  White space before and after the document plays no role: a
    text that is not blank is parsed as its stripped form is. *)
Theorem X4_surrounding_whitespace_is_ignored fromstring content err :
  Py.strip content ≠ "" →
  parse_feed_custom fromstring (Some content) err
  = parse_feed_custom fromstring (Some (Py.strip content)) err.
Proof.
  intros Hs.
  assert (content ≠ "") as Hne by (by intros ->).
  assert (∀ s, s ≠ "" →
               parse_feed_custom fromstring (Some s) err
               = try_except (parse_feed_custom_try fromstring s)
                   parse_feed_custom_except err) as Hunfold.
  { intros s H. by destruct s. }
  rewrite (Hunfold _ Hne), (Hunfold _ Hs).
  unfold try_except, parse_feed_custom_try. by rewrite PyFacts.strip_idem.
Qed.

Lemma X4_witness :
  let padded := "  " ++ rss_document ++ " " in
  parse_feed_custom (fromstring_at rss_document rss_tree) (Some padded) []
  = parse_feed_custom (fromstring_at rss_document rss_tree)
      (Some (Py.strip padded)) [].
Proof.
  apply (X4_surrounding_whitespace_is_ignored
           (fromstring_at rss_document rss_tree) ("  " ++ rss_document ++ " ") []).
  by vm_compute.
Defined.

(** ** X5: summary before content *)

(** X5.  The description of an Atom entry is the stripped text of its
    first summary when that text has a character that is not white
    space.  When the summary is missing, has no text or is blank, the
    description is read from the first content: [None] when that is
    missing or has no text, the empty string when it is blank, its
    stripped text otherwise. *)
Theorem X5_atom_description_prefers_summary item namespaces e :
  atom_entry_data item namespaces = Return e →
  ∃ summary,
    ET.find item "atom:summary" namespaces = Return summary
    ∧ if has_visible_text summary
      then ∃ el t,
             summary = Some el ∧ text el = Some t
             ∧ description e = Some (Py.strip t) ∧ Py.strip t ≠ ""
      else ∃ content,
             ET.find item "atom:content" namespaces = Return content
             ∧ field_of content (description e).
Proof.
  intros (entry_title & summary & _ & _ & Hs & Hd)%atom_entry_data_fields.
  exists summary. split; [done|].
  destruct (has_visible_text summary) eqn:Hv; [|done].
  destruct summary as [el|]; [|done]. simpl in Hv, Hd.
  destruct (text el) as [t|] eqn:Et; [|done].
  apply negb_true_iff in Hv. rewrite Hv in Hd.
  destruct (String.eqb_spec t "") as [->|Hne]; [done|].
  destruct Hd as (Hd & Hs' & _). exists el, t. done.
Qed.

Lemma X5_witness :
  let namespaces : gmap string string := <["atom" := atom_ns]> ∅ in
  let e := mkFields (Some "B") (Some "body") None in
  ∃ summary,
    ET.find blank_summary_entry "atom:summary" namespaces = Return summary
    ∧ if has_visible_text summary
      then ∃ el t,
             summary = Some el ∧ text el = Some t
             ∧ description e = Some (Py.strip t) ∧ Py.strip t ≠ ""
      else ∃ content,
             ET.find blank_summary_entry "atom:content" namespaces
             = Return content
             ∧ field_of content (description e).
Proof.
  apply (X5_atom_description_prefers_summary blank_summary_entry
           (<["atom" := atom_ns]> ∅) (mkFields (Some "B") (Some "body") None)).
  by vm_compute.
Defined.

(** ** X6: which RSS items are kept *)

(** X6.  An RSS item is kept exactly when its first [title] child or
    its first [link] child has text with a character that is not
    white space; a blank title or link counts as a missing one, and the
    description plays no role. *)
Theorem X6_rss_item_kept_iff_visible_title_or_link item :
  ∃ e,
    rss_entry_data item ∅ = Return e
    ∧ has_content e
      = has_visible_text (first_child item "title")
        || has_visible_text (first_child item "link").
Proof.
  unfold rss_entry_data, mbind, outcome_bind.
  rewrite !find_element_text_plain by done.
  eexists. split; [reflexivity|].
  unfold has_content. simpl. by rewrite !truthy_stripped_text.
Qed.

(** ** X7: the link helper *)

(** X7.  [find_element_link] returns the [href] of the element when it
    is non-empty, else the stripped text of the element when it has
    text, else [None]; the second lookup for a [link] under a
    [channel] never yields a value. *)
Theorem X7_find_element_link_href_then_text
    parent_element tag_name namespaces link_element :
  ET.find parent_element tag_name namespaces = Return link_element →
  find_element_link parent_element tag_name namespaces
  = Return match link_element with
           | Some el =>
               if Py.truthy (get el "href") then get el "href"
               else if Py.truthy (text el) then Py.strip <$> text el
               else None
           | None => None
           end.
Proof.
  intros H. unfold find_element_link, mbind, outcome_bind. rewrite H.
  assert (String.eqb tag_name "link" = true →
          find_element_text parent_element "link" namespaces
          = Return match link_element with
                   | Some el =>
                       if Py.truthy (text el) then Py.strip <$> text el else None
                   | None => None
                   end) as Hfallback.
  { intros ->%String.eqb_eq. unfold find_element_text, mbind, outcome_bind.
    by rewrite H. }
  destruct link_element as [el|].
  - destruct (Py.truthy (get el "href")); [done|].
    destruct (Py.truthy (text el)) eqn:Et; [done|].
    destruct (String.eqb tag_name "link") eqn:Etag; [|done].
    destruct (Py.endswith (tag parent_element) "channel"); [|done].
    simpl. rewrite (Hfallback eq_refl). by rewrite ?Et.
  - destruct (String.eqb tag_name "link") eqn:Etag; [|done].
    destruct (Py.endswith (tag parent_element) "channel"); [|done].
    simpl. by rewrite (Hfallback eq_refl).
Qed.

Lemma X7_witness :
  find_element_link channel_with_link "link" ∅ = Return (Some "http://x/").
Proof.
  apply (X7_find_element_link_href_then_text channel_with_link "link" ∅
           (head (children channel_with_link))).
  by vm_compute.
Defined.

(** ** X8: the fetcher never raises *)

(** X8.  [fetch_feed_content] returns on every answer of the network.
    When the request raises, it returns [None] after one line: the
    fetch-error line for an exception of [requests], the
    unexpected-error line for any other.  When the request returns a
    response, it returns a body and prints nothing, or returns [None]
    after one line. *)
Theorem X8_fetch_never_raises requests_get decode_utf8 url err :
  match requests_get url with
  | Raise e =>
      fetch_feed_content requests_get decode_utf8 url err
      = (Return None,
         (err ++ [((if is_RequestException e
                    then "Error fetching URL '" ++ url ++ "': "
                    else "An unexpected error occurred during fetch: ")
                   ++ str_of_exn e)%string])%list)
  | Return response =>
      (∃ body,
         fetch_feed_content requests_get decode_utf8 url err
         = (Return (Some body), err))
      ∨ (∃ line,
           fetch_feed_content requests_get decode_utf8 url err
           = (Return None, (err ++ [line])%list))
  end.
Proof.
  unfold fetch_feed_content, try_except, mbind, M_bind, lift.
  destruct (requests_get url) as [response|e].
  - destruct (Requests.raise_for_status response) as [[]|e] eqn:Hs.
    + left. eauto.
    + right. unfold Requests.raise_for_status in Hs.
      repeat match type of Hs with
             | (if ?c then _ else _) = _ => destruct c
             end; try discriminate Hs; injection Hs as <-; simpl; eauto.
  - destruct (is_RequestException e) eqn:Ee; simpl.
    + unfold print_stderr. do 3 f_equal.
      change ("Error fetching URL '" ++ url ++ "': " ++ str_of_exn e)
        with (String.append "Error fetching URL '"
                (String.append url (String.append "': " (str_of_exn e)))).
      by rewrite <- !NameFacts.append_assoc.
    + done.
Qed.

(** ** X9, X10: the input loop *)

Lemma read_urls_cons line rest urls out :
  read_urls (line :: rest) urls out
  = if negb (Py.truthy (Some (Py.strip line)))
    then (IO.Done urls, ((out ++ [url_prompt (length urls + 1)])%list, rest))
    else read_urls rest (urls ++ [Py.strip line])%list
           (out ++ [url_prompt (length urls + 1)])%list.
Proof.
  cbn [read_urls]. cbv zeta. unfold url_prompt.
  by rewrite Nat2Z.inj_add.
Qed.

Lemma read_urls_until_blank before blank after :
  Forall (λ line, Py.strip line ≠ "") before →
  Py.strip blank = "" →
  ∀ urls out,
    read_urls (before ++ blank :: after) urls out
    = (IO.Done (urls ++ List.map Py.strip before)%list,
       ((out ++ List.map url_prompt
                  (seq (length urls + 1) (length before + 1)))%list,
        after)).
Proof.
  intros Hb Hblank. induction Hb as [|line before Hline _ IH]; intros urls out.
  - cbn [app]. rewrite read_urls_cons, Hblank. by rewrite app_nil_r.
  - cbn [app]. rewrite read_urls_cons.
    replace (Py.truthy (Some (Py.strip line))) with true
      by (symmetry; by apply PyFacts.truthy_Some).
    cbn [negb]. rewrite IH, length_app. cbn [length List.map].
    rewrite <- !app_assoc. cbn [app].
    replace (length before + 1)%nat with (S (length before)) by lia.
    replace (S (length before) + 1)%nat with (S (S (length before))) by lia.
    replace (length urls + 1 + 1)%nat with (S (length urls + 1)) by lia.
    done.
Qed.

(** X9.  The input loop collects the stripped lines that come before
    the first blank line, in order; it writes one numbered prompt for
    each of them and one for the blank line, and leaves the lines
    after the blank line unread. *)
Theorem X9_input_urls_until_blank_line before blank after w :
  IO.stdin w = (before ++ blank :: after)%list →
  Forall (λ line, Py.strip line ≠ "") before →
  Py.strip blank = "" →
  input_urls w
  = (IO.Done (List.map Py.strip before),
     IO.mkWorld
       (IO.stdout w ++ List.map url_prompt (seq 1 (length before + 1)))
       (IO.stderr w) after).
Proof.
  intros Hin Hb Hblank. unfold input_urls.
  by rewrite Hin, (read_urls_until_blank before blank after Hb Hblank [] _).
Qed.

Lemma X9_witness :
  input_urls (IO.mkWorld [] [] [" http://a "; "http://b"; "  "; "zzz"])
  = (IO.Done ["http://a"; "http://b"],
     IO.mkWorld [url_prompt 1; url_prompt 2; url_prompt 3] [] ["zzz"]).
Proof.
  apply (X9_input_urls_until_blank_line [" http://a "; "http://b"] "  " ["zzz"]
           (IO.mkWorld [] [] [" http://a "; "http://b"; "  "; "zzz"])).
  - reflexivity.
  - repeat constructor; by vm_compute.
  - reflexivity.
Defined.

Lemma read_urls_stripped lines :
  ∀ urls out r out' rest,
    Forall (λ url, url ≠ "" ∧ Py.strip url = url) urls →
    read_urls lines urls out = (IO.Done r, (out', rest)) →
    Forall (λ url, url ≠ "" ∧ Py.strip url = url) r.
Proof.
  induction lines as [|line lines IH]; intros urls out r out' rest Hu H.
  - discriminate H.
  - rewrite read_urls_cons in H.
    destruct (Py.truthy (Some (Py.strip line))) eqn:Et; cbn [negb] in H.
    + eapply IH; [|exact H]. apply Forall_app. split; [done|].
      constructor; [|done]. split.
      * by apply PyFacts.truthy_Some.
      * apply PyFacts.strip_idem.
    + by injection H as <- _ _.
Qed.

(** X10.  No URL the input loop returns is empty or has white space
    around it. *)
Theorem X10_input_urls_are_stripped w urls w' :
  input_urls w = (IO.Done urls, w') →
  Forall (λ url, url ≠ "" ∧ Py.strip url = url) urls.
Proof.
  unfold input_urls. intros H.
  destruct (read_urls (IO.stdin w) [] (IO.stdout w)) as [r [out rest]] eqn:Hr.
  injection H as -> _. eapply (read_urls_stripped _ [] _ _ _ _ _ Hr).
  Unshelve. constructor.
Qed.

Lemma X10_witness :
  Forall (λ url, url ≠ "" ∧ Py.strip url = url) ["http://a"; "http://b"].
Proof.
  apply (X10_input_urls_are_stripped
           (IO.mkWorld [] [] [" http://a "; "http://b"; "  "; "zzz"])
           ["http://a"; "http://b"]
           (IO.mkWorld [url_prompt 1; url_prompt 2; url_prompt 3] [] ["zzz"])).
  by vm_compute.
Defined.

(** ** X11: the list of URLs is never empty *)



(** ** Calls that only write *)

Lemma runs_ret {A} (a : A) w : runs (mret a) w a [] (IO.stderr w).
Proof. unfold runs, mret, IO.io_ret. rewrite app_nil_r. by destruct w. Qed.

Lemma runs_print text w err :
  IO.stderr w = err → runs (IO.print text) w tt [IO.Printed text] err.
Proof. by intros <-. Qed.

Lemma runs_bind {A B} (m : IO.io A) (k : A → IO.io B) w a o1 e1 b o2 e2 :
  runs m w a o1 e1 →
  runs (k a) (IO.mkWorld (IO.stdout w ++ o1) e1 (IO.stdin w)) b o2 e2 →
  runs (m ≫= k) w b (o1 ++ o2) e2.
Proof.
  unfold runs, mbind, IO.io_bind. intros -> ->. simpl. by rewrite app_assoc.
Qed.

Lemma runs_of_M {A} (m : M A) w a err :
  m (IO.stderr w) = (Return a, err) → runs (IO.of_M m) w a [] err.
Proof. unfold runs, IO.of_M. intros ->. by rewrite app_nil_r. Qed.

(** ** X12: the library parser *)

(** X12.  [parse_feed_library] never raises.  It returns [None]
    exactly when [feedparser] is not installed, the content is [None]
    or empty, or [feedparser.parse] raises.  Otherwise it returns a
    feed with one entry for each entry of [feedparser], in order and
    without dropping any; a feed flagged [bozo] is returned all the
    same, after one warning line. *)
Theorem X12_parse_feed_library_returns
    feedparser_installed feedparser_parse content err :
  ∃ r lines,
    parse_feed_library feedparser_installed feedparser_parse content err
    = (Return r, (err ++ lines)%list)
    ∧ (r = None ↔
       feedparser_installed = false
       ∨ Py.truthy content = false
       ∨ ∃ s e, content = Some s ∧ feedparser_parse s = Raise e)
    ∧ (∀ p, r = Some p →
       ∃ s feed_data,
         content = Some s
         ∧ feedparser_parse s = Return feed_data
         ∧ entries p = List.map library_entry (Feedparser.entries feed_data)
         ∧ length lines = if Feedparser.bozo feed_data then 1%nat else 0%nat).
Proof.
  unfold parse_feed_library.
  destruct feedparser_installed; simpl.
  2: { eexists None, [_; _]. split; [|split; [|done]].
       - unfold mbind, M_bind, print_stderr, mret, M_ret.
         by rewrite <- app_assoc.
       - split; [by left|done]. }
  destruct content as [s|].
  2: { exists None, []. rewrite app_nil_r. split; [done|]. split; [|done].
       split; [|done]. intros _. right. by left. }
  destruct s as [|c s'].
  { exists None, []. rewrite app_nil_r. split; [done|]. split; [|done].
    split; [|done]. intros _. right. by left. }
  set (s := String c s') in *.
  assert (Py.truthy (Some s) = true) as Ht by done.
  unfold try_except, mbind, M_bind, lift.
  destruct (feedparser_parse s) as [feed_data|e] eqn:Hparse.
  - destruct (Feedparser.bozo feed_data) eqn:Hb; simpl.
    + eexists (Some _), [_]. split; [reflexivity|]. split.
      * split; [done|]. intros [?|[?|(s2 & e & [= <-] & ?)]]; congruence.
      * intros p [= <-]. exists s, feed_data. by rewrite Hb.
    + eexists (Some _), []. rewrite app_nil_r. split; [reflexivity|]. split.
      * split; [done|]. intros [?|[?|(s2 & e & [= <-] & ?)]]; congruence.
      * intros p [= <-]. exists s, feed_data. by rewrite Hb.
  - simpl. eexists None, [_]. split; [reflexivity|]. split; [|done].
    split; [|done]. intros _. right. right. eauto.
Qed.

(** ** X13: what the display writes *)

Section DisplayFacts.

Variable re_sub : string → string → string → string.
Variable html_unescape : string → string.
Variable textwrap_fill : string → Z → string → string → string.

Lemma display_entry_runs entry w :
  ∃ out,
    runs (display_entry re_sub html_unescape textwrap_fill entry) w tt out
      (IO.stderr w)
    ∧ length out = 3%nat.
Proof.
  unfold display_entry.
  destruct (Py.truthy (description entry)); eexists [_; _; _];
    (split; [|done]);
    (eapply (runs_bind _ _ w tt [_] _ tt [_; _]); [by apply runs_print|]);
    (eapply (runs_bind _ _ _ tt [_] _ tt [_]); [by apply runs_print|]);
    by apply runs_print.
Qed.

Lemma display_entries_runs entries :
  ∀ w,
    ∃ out,
      runs (display_entries re_sub html_unescape textwrap_fill entries) w tt out
        (IO.stderr w)
      ∧ length out = (3 * length entries)%nat.
Proof.
  induction entries as [|entry rest IH]; intros w.
  - exists []. split; [apply runs_ret|done].
  - destruct (display_entry_runs entry w) as (o1 & H1 & L1).
    destruct (IH (IO.mkWorld (IO.stdout w ++ o1) (IO.stderr w) (IO.stdin w)))
      as (o2 & H2 & L2).
    exists (o1 ++ o2)%list. split.
    + cbn [display_entries]. eapply runs_bind; [exact H1|exact H2].
    + rewrite length_app, L1, L2. simpl. lia.
Qed.

Lemma display_description_runs (d : option string) w :
  ∃ out,
    runs (if Py.truthy d
          then IO.print ("Description: " ++ py_format d ++ nl)
          else mret tt) w tt out (IO.stderr w)
    ∧ length out = if Py.truthy d then 1%nat else 0%nat.
Proof.
  destruct (Py.truthy d).
  - eexists [_]. split; [by apply runs_print|done].
  - exists []. split; [apply (runs_ret tt)|done].
Qed.

Lemma display_rest_runs (entries : list Fields) w :
  ∃ out,
    runs match entries with
         | [] =>
             _ ← IO.print "No entries found in this feed.";
             IO.print (py_mul "-" (DESCRIPTION_WRAP_WIDTH + 4))
         | _ =>
             _ ← IO.print "--- Entries ---";
             _ ← display_entries re_sub html_unescape textwrap_fill entries;
             IO.print (py_mul "-" (DESCRIPTION_WRAP_WIDTH + 4))
         end w tt (out ++ [separator]) (IO.stderr w)
    ∧ length out = (1 + 3 * length entries)%nat.
Proof.
  destruct entries as [|entry rest].
  - exists [IO.Printed "No entries found in this feed."]. split; [|done].
    eapply (runs_bind _ _ w tt [_] _ tt [_]); by apply runs_print.
  - destruct (display_entries_runs (entry :: rest)
                (IO.mkWorld (IO.stdout w ++ [IO.Printed "--- Entries ---"])
                   (IO.stderr w) (IO.stdin w))) as (o & Ho & Lo).
    exists (IO.Printed "--- Entries ---" :: o). split; [|simpl in *; lia].
    change ((IO.Printed "--- Entries ---" :: o) ++ [separator])%list
      with ([IO.Printed "--- Entries ---"] ++ (o ++ [separator]))%list.
    eapply runs_bind; [by apply runs_print|].
    eapply runs_bind; [exact Ho|]. by apply runs_print.
Qed.

Lemma display_parsed_data_runs p url w :
  ∃ middle,
    runs (display_parsed_data re_sub html_unescape textwrap_fill (Some p) url)
      w tt
      ([separator; IO.Printed ("Feed Source: " ++ url)] ++ middle ++ [separator])
      (IO.stderr w)
    ∧ length middle
      = ((if Py.truthy (description (feed p)) then 3 else 2)
         + 3 * length (entries p))%nat.
Proof.
  set (line := IO.Printed (nl ++ "--- Feed: " ++ py_format (title (feed p))
                           ++ " ---")).
  set (w3 := IO.mkWorld
               (((IO.stdout w ++ [separator])
                 ++ [IO.Printed ("Feed Source: " ++ url)]) ++ [line])
               (IO.stderr w) (IO.stdin w)).
  destruct (display_description_runs (description (feed p)) w3)
    as (o_desc & Hdesc & Ldesc).
  destruct (display_rest_runs (entries p)
              (IO.mkWorld (IO.stdout w3 ++ o_desc) (IO.stderr w) (IO.stdin w)))
    as (o_rest & Hrest & Lrest).
  exists ([line] ++ o_desc ++ o_rest)%list. split.
  - replace ([separator; IO.Printed ("Feed Source: " ++ url)]
             ++ ([line] ++ o_desc ++ o_rest) ++ [separator])%list
      with ([separator]
            ++ [IO.Printed ("Feed Source: " ++ url)]
            ++ [line] ++ o_desc ++ (o_rest ++ [separator]))%list.
    2: { simpl. by rewrite <- !app_assoc. }
    unfold display_parsed_data.
    eapply runs_bind; [by apply runs_print|].
    eapply runs_bind; [by apply runs_print|].
    eapply runs_bind; [by apply runs_print|].
    eapply runs_bind; [exact Hdesc|]. exact Hrest.
  - simpl. rewrite length_app, Ldesc, Lrest.
    destruct (Py.truthy (description (feed p))); lia.
Qed.

End DisplayFacts.

Lemma display_entry_lines re_sub html_unescape textwrap_fill entry w :
  runs (display_entry re_sub html_unescape textwrap_fill entry) w tt
    (entry_lines re_sub html_unescape textwrap_fill entry) (IO.stderr w).
Proof.
  unfold display_entry, entry_lines.
  eapply (runs_bind _ _ w tt [_] _ tt [_; _]); [by apply runs_print|].
  eapply (runs_bind _ _ _ tt [_] _ tt [_]); [by apply runs_print|].
  destruct (description entry) as [[|c text]|]; by apply runs_print.
Qed.

Lemma display_entries_lines re_sub html_unescape textwrap_fill entries :
  ∀ w,
    runs (display_entries re_sub html_unescape textwrap_fill entries) w tt
      (concat (List.map (entry_lines re_sub html_unescape textwrap_fill) entries))
      (IO.stderr w).
Proof.
  induction entries as [|entry rest IH]; intros w.
  - apply runs_ret.
  - cbn [display_entries List.map concat].
    eapply (runs_bind _ _ w tt _ (IO.stderr w) tt _ (IO.stderr w));
      [apply display_entry_lines|]. apply (IH (IO.mkWorld _ _ _)).
Qed.

Lemma display_description_lines (d : option string) w :
  runs (if Py.truthy d
        then IO.print ("Description: " ++ py_format d ++ nl)
        else mret tt) w tt
    match d with
    | Some (String _ _ as text) => [IO.Printed ("Description: " ++ text ++ nl)]
    | _ => []
    end (IO.stderr w).
Proof.
  destruct d as [[|c text]|];
    [apply (runs_ret tt)|by apply runs_print|apply (runs_ret tt)].
Qed.

(** X13.  For a parsed feed, [display_parsed_data] returns after
    writing to [sys.stdout], in this order: the line of 84 dashes, the
    source line, the feed title, the feed description when it is not
    empty, then either the line that says there are no entries or the
    heading and, for every entry in order, its title, its link and
    its cleaned and wrapped description (or the line that says there
    is none), and the line of dashes again.  It writes nothing to
    [sys.stderr] and reads nothing. *)
Theorem X13_display_frames_the_feed re_sub html_unescape textwrap_fill p url w :
  display_parsed_data re_sub html_unescape textwrap_fill (Some p) url w
  = (IO.Done tt,
     IO.mkWorld
       (IO.stdout w ++ feed_lines re_sub html_unescape textwrap_fill p url)
       (IO.stderr w) (IO.stdin w)).
Proof.
  change (runs (display_parsed_data re_sub html_unescape textwrap_fill (Some p) url)
            w tt (feed_lines re_sub html_unescape textwrap_fill p url)
            (IO.stderr w)).
  unfold display_parsed_data, feed_lines.
  eapply (runs_bind _ _ w tt [_] _ tt); [by apply runs_print|].
  eapply (runs_bind _ _ _ tt [_] _ tt); [by apply runs_print|].
  eapply (runs_bind _ _ _ tt [_] _ tt); [by apply runs_print|].
  eapply (runs_bind _ _ _ tt _ (IO.stderr w) tt);
    [apply (display_description_lines _ (IO.mkWorld _ _ _))|].
  destruct (entries p) as [|entry rest] eqn:He.
  - eapply (runs_bind _ _ _ tt [_] _ tt [_]); by apply runs_print.
  - eapply (runs_bind _ _ _ tt [_] _ tt); [by apply runs_print|].
    eapply runs_bind; [apply display_entries_lines|]. by apply runs_print.
Qed.

(** ** X14, X15: the loop over the feeds *)

Lemma fetch_feed_content_returns requests_get decode_utf8 url err :
  ∃ r err', fetch_feed_content requests_get decode_utf8 url err = (Return r, err').
Proof.
  unfold fetch_feed_content, try_except, mbind, M_bind, lift.
  destruct (requests_get url) as [response|e].
  - destruct (Requests.raise_for_status response) as [[]|e]; [by eauto|].
    destruct (is_RequestException e); simpl; eauto.
  - destruct (is_RequestException e); simpl; eauto.
Qed.

Lemma parse_feed_custom_returns fromstring content err :
  ∃ r err', parse_feed_custom fromstring content err = (Return r, err').
Proof.
  destruct content as [[|c s]|]; [by eexists _, _| |by eexists _, _].
  unfold parse_feed_custom, try_except.
  destruct (parse_feed_custom_try _ _ _) as [[r|e] err1]; [by eauto|].
  destruct (parse_feed_custom_except_returns e err1) as [line ->]. eauto.
Qed.

Lemma parse_feed_library_total installed parse content err :
  ∃ r err', parse_feed_library installed parse content err = (Return r, err').
Proof.
  unfold parse_feed_library. destruct installed; simpl; [|by eexists _, _].
  destruct content as [[|c s]|]; [by eexists _, _| |by eexists _, _].
  unfold try_except, mbind, M_bind, lift.
  destruct (parse (String c s)) as [feed_data|e]; [|by eexists _, _].
  destruct (Feedparser.bozo feed_data); by eexists _, _.
Qed.

Section LoopFacts.

Variable requests_get : string → outcome Requests.Response.
Variable decode_utf8 : list Byte.byte → option string.
Variable re_sub : string → string → string → string.
Variable html_unescape : string → string.
Variable textwrap_fill : string → Z → string → string → string.
Variable parse_function : option string → M (option Parsed).
Hypothesis parse_function_returns :
  ∀ content err, ∃ r err', parse_function content err = (Return r, err').

Lemma process_feed_runs feed_url w :
  ∃ middle err,
    runs (process_feed requests_get decode_utf8 re_sub html_unescape
            textwrap_fill parse_function feed_url)
      w tt (feed_block feed_url middle) err.
Proof.
  unfold process_feed, feed_block.
  destruct (fetch_feed_content_returns requests_get decode_utf8 feed_url
              (IO.stderr w)) as (feed_content & err1 & Hfetch).
  assert (∀ w1, IO.stderr w1 = err1 →
          ∃ middle err,
            runs (if Py.truthy feed_content then
                    _ ← IO.print "Parsing feed...";
                    parsed_data ← IO.of_M (parse_function feed_content);
                    match parsed_data with
                    | Some _ =>
                        _ ← IO.print "Displaying feed:";
                        display_parsed_data re_sub html_unescape textwrap_fill
                          parsed_data feed_url
                    | None =>
                        IO.print ("Failed to parse the feed content for "
                                  ++ feed_url ++ ".")
                    end
                  else
                    IO.print ("Failed to fetch the feed content for "
                              ++ feed_url ++ "."))
              w1 tt middle err) as Hmiddle.
  { intros w1 Hw1. destruct (Py.truthy feed_content).
    - destruct (parse_function_returns feed_content err1)
        as (parsed_data & err2 & Hparse).
      destruct parsed_data as [p|].
      + destruct (display_parsed_data_runs re_sub html_unescape textwrap_fill
                    p feed_url
                    (IO.mkWorld
                       (((IO.stdout w1 ++ [IO.Printed "Parsing feed..."]) ++ [])
                        ++ [IO.Printed "Displaying feed:"])
                       err2 (IO.stdin w1))) as (middle & Hd & _).
        eexists _, err2.
        eapply runs_bind; [by apply runs_print|].
        eapply runs_bind.
        { apply runs_of_M. simpl. rewrite ?Hw1. exact Hparse. }
        eapply runs_bind; [by apply runs_print|]. exact Hd.
      + eexists _, err2.
        eapply runs_bind; [by apply runs_print|].
        eapply runs_bind.
        { apply runs_of_M. simpl. rewrite ?Hw1. exact Hparse. }
        by apply runs_print.
    - eexists _, err1. by apply runs_print. }
  destruct (Hmiddle
              (IO.mkWorld
                 (((IO.stdout w
                    ++ [IO.Printed (nl ++ ">>> Processing feed: " ++ feed_url)])
                   ++ [IO.Printed "Fetching content..."]) ++ [])
                 err1 (IO.stdin w)) eq_refl) as (middle & err & Hm).
  exists middle, err.
  replace ([IO.Printed (nl ++ ">>> Processing feed: " ++ feed_url);
            IO.Printed "Fetching content..."]
           ++ middle ++ [IO.Printed "<<< Finished processing feed."])%list
    with ([IO.Printed (nl ++ ">>> Processing feed: " ++ feed_url)]
          ++ [IO.Printed "Fetching content..."]
          ++ [] ++ middle ++ [IO.Printed "<<< Finished processing feed."])%list
    by done.
  eapply runs_bind; [by apply runs_print|].
  eapply runs_bind; [by apply runs_print|].
  eapply runs_bind; [apply runs_of_M; exact Hfetch|].
  eapply runs_bind; [exact Hm|]. by apply runs_print.
Qed.

Lemma process_feeds_runs feed_urls :
  ∀ w,
    ∃ blocks err,
      runs (process_feeds requests_get decode_utf8 re_sub html_unescape
              textwrap_fill parse_function feed_urls)
        w tt (concat blocks) err
      ∧ Forall2 (λ feed_url block, ∃ middle, block = feed_block feed_url middle)
          feed_urls blocks.
Proof.
  induction feed_urls as [|feed_url rest IH]; intros w.
  - exists [], (IO.stderr w). split; [apply (runs_ret tt)|constructor].
  - destruct (process_feed_runs feed_url w) as (middle & err1 & H1).
    destruct (IH (IO.mkWorld (IO.stdout w ++ feed_block feed_url middle) err1
                    (IO.stdin w))) as (blocks & err & H2 & HF).
    exists (feed_block feed_url middle :: blocks), err. split.
    + cbn [process_feeds concat]. eapply runs_bind; [exact H1|exact H2].
    + constructor; eauto.
Qed.

End LoopFacts.

(** X14.  With the URLs on the command line, [main] exits with status
    1 after one line on [sys.stderr] when there is none; otherwise it
    names the parser and then handles every URL, in order, whatever
    happens to the others: for each it writes the two opening lines
    and the closing line around what fetching, parsing and displaying
    write.  It neither raises nor exits then, and reads nothing. *)
Theorem X14_main_processes_every_url
    fromstring feedparser_installed feedparser_parse requests_get decode_utf8
    re_sub html_unescape textwrap_fill args w :
  input args = false →
  let run :=
    main fromstring feedparser_installed feedparser_parse requests_get
      decode_utf8 re_sub html_unescape textwrap_fill args w in
  match urls args with
  | [] =>
      run = (IO.Exited 1,
             IO.mkWorld (IO.stdout w)
               (IO.stderr w ++ ["Error: No feed URLs provided."])
               (IO.stdin w))
  | _ =>
      ∃ blocks err,
        run = (IO.Done tt,
               IO.mkWorld
                 (IO.stdout w
                  ++ [IO.Printed (if use_custom_parser args
                                  then "Using CUSTOM XML parser."
                                  else "Using 'feedparser' library.")]
                  ++ concat blocks)
                 err (IO.stdin w))
        ∧ Forall2 (λ feed_url block, ∃ middle, block = feed_block feed_url middle)
            (urls args) blocks
  end.
Proof.
  intros Hinput run. subst run. unfold main. rewrite Hinput.
  unfold get_feed_urls_from_args.
  destruct (urls args) as [|feed_url rest] eqn:Hurls; [done|].
  set (w1 text := IO.mkWorld (IO.stdout w ++ [IO.Printed text]) (IO.stderr w)
                    (IO.stdin w)).
  destruct (use_custom_parser args).
  - destruct (process_feeds_runs requests_get decode_utf8 re_sub html_unescape
                textwrap_fill (parse_feed_custom fromstring)
                (parse_feed_custom_returns fromstring) (feed_url :: rest)
                (w1 "Using CUSTOM XML parser.")) as (blocks & err & Hrun & HF).
    exists blocks, err. split; [|done].
    unfold runs in Hrun. unfold mbind, IO.io_bind, mret, IO.io_ret, IO.print.
    simpl. unfold w1 in Hrun. simpl in Hrun. rewrite Hrun.
    by rewrite <- app_assoc.
  - destruct (process_feeds_runs requests_get decode_utf8 re_sub html_unescape
                textwrap_fill
                (parse_feed_library feedparser_installed feedparser_parse)
                (parse_feed_library_total feedparser_installed feedparser_parse)
                (feed_url :: rest)
                (w1 "Using 'feedparser' library.")) as (blocks & err & Hrun & HF).
    exists blocks, err. split; [|done].
    unfold runs in Hrun. unfold mbind, IO.io_bind, mret, IO.io_ret, IO.print.
    simpl. unfold w1 in Hrun. simpl in Hrun. rewrite Hrun.
    by rewrite <- app_assoc.
Qed.

Lemma X14_witness :
  let args := mkArgs ["http://a"; "http://b"] true false in
  let w := IO.mkWorld [] [] [] in
  let run :=
    main (fromstring_at rss_document rss_tree) false
      (λ _, Raise (Exception "no parser")) demo_get (λ _, None)
      (λ _ _ s, s) (λ s, s) (λ s _ indent _, indent ++ s) args w in
  ∃ blocks err,
    run = (IO.Done tt,
           IO.mkWorld
             (IO.stdout w ++ [IO.Printed "Using CUSTOM XML parser."]
              ++ concat blocks)
             err (IO.stdin w))
    ∧ Forall2 (λ feed_url block, ∃ middle, block = feed_block feed_url middle)
        (urls args) blocks.
Proof.
  apply (X14_main_processes_every_url
           (fromstring_at rss_document rss_tree) false
           (λ _, Raise (Exception "no parser")) demo_get (λ _, None)
           (λ _ _ s, s) (λ s, s) (λ s _ indent _, indent ++ s)
           (mkArgs ["http://a"; "http://b"] true false) (IO.mkWorld [] [] [])).
  reflexivity.
Defined.

(** X15.  A response that passes the status check with an empty body
    is handled like a failed fetch: the loop writes the failed-fetch
    line for the URL, the parser is not called, and nothing is printed
    to [sys.stderr]. *)
Theorem X15_empty_body_counts_as_failed_fetch
    requests_get decode_utf8 re_sub html_unescape textwrap_fill
    parse_function feed_url response w :
  requests_get feed_url = Return response →
  Requests.raise_for_status response = Return tt →
  match decode_utf8 (Requests.content response) with
  | Some content => content
  | None => Requests.text response
  end = "" →
  process_feed requests_get decode_utf8 re_sub html_unescape textwrap_fill
    parse_function feed_url w
  = (IO.Done tt,
     IO.mkWorld
       (IO.stdout w
        ++ feed_block feed_url
             [IO.Printed ("Failed to fetch the feed content for "
                          ++ feed_url ++ ".")])
       (IO.stderr w) (IO.stdin w)).
Proof.
  intros Hget Hstatus Hbody.
  unfold process_feed, feed_block, mbind, IO.io_bind, IO.print, IO.of_M.
  simpl.
  unfold fetch_feed_content, try_except, mbind, M_bind, lift.
  rewrite Hget, Hstatus, Hbody. simpl. by rewrite <- !app_assoc.
Qed.

Lemma X15_witness :
  process_feed demo_get (λ _, None) (λ _ _ s, s) (λ s, s)
    (λ s _ indent _, indent ++ s)
    (parse_feed_custom (fromstring_at rss_document rss_tree)) "http://c"
    (IO.mkWorld [] [] [])
  = (IO.Done tt,
     IO.mkWorld
       ([] ++ feed_block "http://c"
                [IO.Printed "Failed to fetch the feed content for http://c."])
       [] []).
Proof.
  apply (X15_empty_body_counts_as_failed_fetch demo_get (λ _, None)
           (λ _ _ s, s) (λ s, s) (λ s _ indent _, indent ++ s)
           (parse_feed_custom (fromstring_at rss_document rss_tree)) "http://c"
           (ok_response "" "http://c") (IO.mkWorld [] [] [])).
  - reflexivity.
  - reflexivity.
  - reflexivity.
Defined.

Lemma io_bind_unfold {A B} (m : IO.io A) (k : A → IO.io B) w :
  (m ≫= k) w
  = match m w with
    | (IO.Done a, w') => k a w'
    | (IO.Raised e, w') => (IO.Raised e, w')
    | (IO.Exited code, w') => (IO.Exited code, w')
    end.
Proof. done. Qed.

(** X16.  With [--input], [main] takes its URLs from [sys.stdin] and
    ignores those of the command line: it processes, in order, the
    stripped lines that come before the first blank line and leaves
    the lines after it unread; when the first line is blank it prints
    a line and exits with status 1 before anything is fetched. *)
Theorem X16_main_reads_urls_from_stdin
    fromstring feedparser_installed feedparser_parse requests_get decode_utf8
    re_sub html_unescape textwrap_fill args w before blank after :
  input args = true →
  IO.stdin w = (before ++ blank :: after)%list →
  Forall (λ line, Py.strip line ≠ "") before →
  Py.strip blank = "" →
  let run :=
    main fromstring feedparser_installed feedparser_parse requests_get
      decode_utf8 re_sub html_unescape textwrap_fill args w in
  let asked :=
    (IO.Printed
       "Enter RSS feed URLs one by one. Press Enter on an empty line to finish."
     :: List.map url_prompt (seq 1 (length before + 1)))%list in
  match before with
  | [] =>
      run = (IO.Exited 1,
             IO.mkWorld
               (IO.stdout w ++ asked
                ++ [IO.Printed "No URLs entered via input. Exiting."])
               (IO.stderr w) after)
  | _ =>
      ∃ blocks err,
        run = (IO.Done tt,
               IO.mkWorld
                 (IO.stdout w ++ asked
                  ++ [IO.Printed (if use_custom_parser args
                                  then "Using CUSTOM XML parser."
                                  else "Using 'feedparser' library.")]
                  ++ concat blocks)
                 err after)
        ∧ Forall2 (λ feed_url block, ∃ middle, block = feed_block feed_url middle)
            (List.map Py.strip before) blocks
  end.
Proof.
  intros Hinput Hin Hb Hblank run asked. subst run asked.
  assert (input_urls
            (IO.mkWorld
               (IO.stdout w
                ++ [IO.Printed
                      "Enter RSS feed URLs one by one. Press Enter on an empty line to finish."])
               (IO.stderr w) (IO.stdin w))
          = (IO.Done (List.map Py.strip before),
             IO.mkWorld
               ((IO.stdout w
                 ++ [IO.Printed
                       "Enter RSS feed URLs one by one. Press Enter on an empty line to finish."])
                ++ List.map url_prompt (seq 1 (length before + 1)))
               (IO.stderr w) after)) as Hurls.
  { unfold input_urls. cbn [IO.stdin IO.stdout IO.stderr]. rewrite Hin.
    by rewrite (read_urls_until_blank before blank after Hb Hblank [] _). }
  unfold main. rewrite Hinput.
  rewrite (io_bind_unfold _ _ w). rewrite (io_bind_unfold _ _ w).
  change (IO.print
            "Enter RSS feed URLs one by one. Press Enter on an empty line to finish."
            w)
    with (IO.Done tt,
          IO.mkWorld
            (IO.stdout w
             ++ [IO.Printed
                   "Enter RSS feed URLs one by one. Press Enter on an empty line to finish."])
            (IO.stderr w) (IO.stdin w)).
  cbv iota beta. rewrite io_bind_unfold, Hurls. cbv iota beta.
  destruct before as [|line before].
  - unfold mbind, IO.io_bind, IO.print, IO.exit. cbn. by rewrite <- !app_assoc.
  - set (w1 := IO.mkWorld
                 ((IO.stdout w
                   ++ [IO.Printed
                         "Enter RSS feed URLs one by one. Press Enter on an empty line to finish."])
                  ++ List.map url_prompt (seq 1 (length (line :: before) + 1)))
                 (IO.stderr w) after).
    set (w2 text := IO.mkWorld (IO.stdout w1 ++ [IO.Printed text]) (IO.stderr w)
                      after).
    destruct (use_custom_parser args).
    + destruct (process_feeds_runs requests_get decode_utf8 re_sub html_unescape
                  textwrap_fill (parse_feed_custom fromstring)
                  (parse_feed_custom_returns fromstring)
                  (Py.strip line :: List.map Py.strip before)
                  (w2 "Using CUSTOM XML parser.")) as (blocks & err & Hrun & HF).
      exists blocks, err. split; [|done].
      unfold runs in Hrun.
      etransitivity; [|etransitivity; [exact Hrun|]]; [reflexivity|].
      unfold w2, w1. cbn [IO.stdin IO.stdout IO.stderr]. do 2 f_equal.
      rewrite <- !app_assoc. reflexivity.
    + destruct (process_feeds_runs requests_get decode_utf8 re_sub html_unescape
                  textwrap_fill
                  (parse_feed_library feedparser_installed feedparser_parse)
                  (parse_feed_library_total feedparser_installed feedparser_parse)
                  (Py.strip line :: List.map Py.strip before)
                  (w2 "Using 'feedparser' library.")) as (blocks & err & Hrun & HF).
      exists blocks, err. split; [|done].
      unfold runs in Hrun.
      etransitivity; [|etransitivity; [exact Hrun|]]; [reflexivity|].
      unfold w2, w1. cbn [IO.stdin IO.stdout IO.stderr]. do 2 f_equal.
      rewrite <- !app_assoc. reflexivity.
Qed.

Lemma X16_witness :
  let args := mkArgs ["http://ignored"] true true in
  let w := IO.mkWorld [] [] [" http://a "; "  "; "zzz"] in
  let run :=
    main (fromstring_at rss_document rss_tree) false
      (λ _, Raise (Exception "no parser")) demo_get (λ _, None)
      (λ _ _ s, s) (λ s, s) (λ s _ indent _, indent ++ s) args w in
  ∃ blocks err,
    run = (IO.Done tt,
           IO.mkWorld
             (IO.stdout w
              ++ (IO.Printed
                    "Enter RSS feed URLs one by one. Press Enter on an empty line to finish."
                  :: List.map url_prompt (seq 1 2))
              ++ [IO.Printed "Using CUSTOM XML parser."]
              ++ concat blocks)
             err ["zzz"])
    ∧ Forall2 (λ feed_url block, ∃ middle, block = feed_block feed_url middle)
        ["http://a"] blocks.
Proof.
  apply (X16_main_reads_urls_from_stdin
           (fromstring_at rss_document rss_tree) false
           (λ _, Raise (Exception "no parser")) demo_get (λ _, None)
           (λ _ _ s, s) (λ s, s) (λ s _ indent _, indent ++ s)
           (mkArgs ["http://ignored"] true true)
           (IO.mkWorld [] [] [" http://a "; "  "; "zzz"])
           [" http://a "] "  " ["zzz"]).
  - reflexivity.
  - reflexivity.
  - repeat constructor. by vm_compute.
  - reflexivity.
Defined.
